(** * Token verification and authorization core of the API (auth.py)

    A shallow embedding of [auth.py]: the key provider [get_jwks], the header
    extraction [_get_token_auth_header], the two guards [requires_auth] and
    [requires_admin], the policy predicate [is_admin_from_payload] and the
    error handlers of [register_auth_error_handlers].

    Python values are embedded as an inductive type, exceptions as an error
    type, and the module-level cache together with the network as an
    explicit world that every stateful function threads through. *)

From Stdlib Require Import String Ascii ZArith List Bool Lia.
Import ListNotations.

Open Scope string_scope.
Open Scope Z_scope.

Set Warnings "-register-all".

(** ** Python values and the operations the module applies to them *)

Module Py.

(** The values a JSON document parses to ([None], [bool], [int], [str],
    [list], [dict]).  Characters are code points below 256, which is how a
    WSGI server hands header values over; JSON reals are left out, no
    operation of the module looks inside a number other than through [==]
    and truthiness.  A [dict] keeps its items in insertion order. *)
Inductive value : Type :=
| VNone
| VBool (b : bool)
| VInt (z : Z)
| VStr (s : string)
| VList (l : list value)
| VDict (d : list (string * value)).

Definition dict : Type := list (string * value).

(** Exceptions that can leave a function of the module.  [abort(code,
    description=...)] raises an [HTTPException]. *)
Inductive exn : Type :=
| HTTPException (code : Z) (description : string)
| IndexError
| AttributeError
| TypeError
| OtherError (name : string).

Inductive res (A : Type) : Type :=
| Ret (a : A)
| Raise (e : exn).
Arguments Ret {A} a.
Arguments Raise {A} e.

(** Sequencing of computations that may raise. *)
Definition bind {A B : Type} (c : res A) (k : A -> res B) : res B :=
  match c with
  | Ret a => k a
  | Raise e => Raise e
  end.

Notation "x <- c ;; k" := (bind c (fun x => k))
  (at level 61, c at next level, right associativity).

Definition abort {A : Type} (code : Z) (description : string) : res A :=
  Raise (HTTPException code description).

(** [d.get(k)] on a dict body: the first item under the key. *)
Fixpoint lookup (k : string) (d : dict) : option value :=
  match d with
  | [] => None
  | (k', v) :: d' => if String.eqb k k' then Some v else lookup k d'
  end.

(** [x.get(k, default)]: only a dict has the method. *)
Definition get_default (x : value) (k : string) (default : value) : res value :=
  match x with
  | VDict d => Ret (match lookup k d with Some v => v | None => default end)
  | _ => Raise AttributeError
  end.

Definition get (x : value) (k : string) : res value := get_default x k VNone.

(** [bool(x)]. *)
Definition truthy (x : value) : bool :=
  match x with
  | VNone => false
  | VBool b => b
  | VInt z => negb (z =? 0)
  | VStr s => negb (String.eqb s "")
  | VList l => match l with [] => false | _ => true end
  | VDict d => match d with [] => false | _ => true end
  end.

Definition is_None (x : value) : bool :=
  match x with VNone => true | _ => false end.

Definition num (x : value) : option Z :=
  match x with
  | VBool b => Some (if b then 1 else 0)
  | VInt z => Some z
  | _ => None
  end.

(** [a == b]: structural on strings, lists and dicts (a dict compares
    regardless of item order), numeric between [bool] and [int]. *)
Fixpoint py_eq (a b : value) {struct a} : bool :=
  match a with
  | VNone => is_None b
  | VStr s => match b with VStr t => String.eqb s t | _ => false end
  | VList l =>
      match b with
      | VList m =>
          (fix go (l m : list value) {struct l} : bool :=
             match l, m with
             | [], [] => true
             | x :: l', y :: m' => py_eq x y && go l' m'
             | _, _ => false
             end) l m
      | _ => false
      end
  | VDict d =>
      match b with
      | VDict e =>
          Nat.eqb (length d) (length e) &&
          (fix go (d : dict) {struct d} : bool :=
             match d with
             | [] => true
             | (k, v) :: d' =>
                 match lookup k e with
                 | Some w => py_eq v w
                 | None => false
                 end && go d'
             end) d
      | _ => false
      end
  | VBool x => match num b with Some y => (if x then 1 else 0) =? y | None => false end
  | VInt x => match num b with Some y => x =? y | None => false end
  end.

(** [str.isspace] on one character below 256. *)
Definition is_space (c : ascii) : bool :=
  let n := Z.of_nat (nat_of_ascii c) in
  ((9 <=? n) && (n <=? 13)) || ((28 <=? n) && (n <=? 32))
  || (n =? 133) || (n =? 160).

(** [s.split()]: maximal runs of non-space characters. *)
Fixpoint split_aux (s : string) (word : string) : list string :=
  match s with
  | EmptyString => if String.eqb word "" then [] else [word]
  | String c s' =>
      if is_space c
      then (if String.eqb word "" then split_aux s' ""
            else word :: split_aux s' "")
      else split_aux s' (word ++ String c "")
  end.

Definition split (s : string) : list string := split_aux s "".
#[global] Arguments split : simpl never.

Definition lower_char (c : ascii) : ascii :=
  let n := Z.of_nat (nat_of_ascii c) in
  if ((65 <=? n) && (n <=? 90))
     || ((192 <=? n) && (n <=? 222) && negb (n =? 215))
  then ascii_of_nat (nat_of_ascii c + 32)
  else c.

(** [s.lower()]. *)
Fixpoint lower (s : string) : string :=
  match s with
  | EmptyString => EmptyString
  | String c s' => String (lower_char c) (lower s')
  end.

(** [s.endswith(suffix)]. *)
Fixpoint endswith (s suffix : string) : bool :=
  String.eqb s suffix ||
  match s with
  | EmptyString => false
  | String _ s' => endswith s' suffix
  end.

(** [sub in s] between two strings. *)
Fixpoint contains (s sub : string) : bool :=
  String.prefix sub s ||
  match s with
  | EmptyString => false
  | String _ s' => contains s' sub
  end.

(** [x in container]: element of a list, substring of a string, key of a
    dict; anything else is not iterable. *)
Definition py_in (x : value) (container : value) : res bool :=
  match container with
  | VList l => Ret (existsb (py_eq x) l)
  | VStr s =>
      match x with
      | VStr sub => Ret (contains s sub)
      | _ => Raise TypeError
      end
  | VDict d => Ret (existsb (fun kv => py_eq x (VStr (fst kv))) d)
  | _ => Raise TypeError
  end.

(** The sequence a [for] loop walks: the elements of a list, the characters
    of a string, the keys of a dict. *)
Definition iter (x : value) : res (list value) :=
  match x with
  | VList l => Ret l
  | VStr s => Ret (map (fun c => VStr (String c "")) (list_ascii_of_string s))
  | VDict d => Ret (map (fun kv => VStr (fst kv)) d)
  | _ => Raise TypeError
  end.

(** [l[i]]. *)
Definition index {A : Type} (l : list A) (i : nat) : res A :=
  match nth_error l i with
  | Some a => Ret a
  | None => Raise IndexError
  end.

End Py.

Import Py.

(** ** The world the module runs in *)

(** What one [requests.get] can meet: no connection (or a timeout), or a
    reply with a status and a body that parses as JSON or does not. *)
Inductive http_reply : Type :=
| NoReply (why : string)
| Reply (status : Z) (body : option value).

(** A record of [current_app.logger.error(msg, *args)]. *)
Inductive log_record : Type :=
| LogError (msg : string) (arg : option exn).

(** The process-wide cache [_jwks_cache] ([VNone] is Python's [None]), the
    network as the reply the [n]-th request to a URL gets, the number of
    requests sent so far, the application log, and [request.current_user]
    of the request being served. *)
Record world : Type := mkWorld {
  _jwks_cache : value;
  net : string -> nat -> http_reply;
  requests_sent : nat;
  app_log : list log_record;
  current_user : option value
}.

Definition M (A : Type) : Type := world -> res A * world.

(** Sequencing in [M]: an exception ends the computation and keeps the
    world it was raised in. *)
Definition bindM {A B : Type} (c : M A) (k : A -> M B) : M B := fun w =>
  match c w with
  | (Ret a, w') => k a w'
  | (Raise e, w') => (Raise e, w')
  end.

Notation "x <~ c ;; k" := (bindM c (fun x => k))
  (at level 61, c at next level, right associativity).

(** A computation without effect on the world. *)
Definition lift {A : Type} (c : res A) : M A := fun w => (c, w).

Definition set_cache (j : value) (w : world) : world :=
  mkWorld j (net w) (requests_sent w) (app_log w) (current_user w).

Definition logger_error (msg : string) (arg : option exn) (w : world) : world :=
  mkWorld (_jwks_cache w) (net w) (requests_sent w)
          (app_log w ++ [LogError msg arg]) (current_user w).

Definition set_current_user (p : value) (w : world) : world :=
  mkWorld (_jwks_cache w) (net w) (requests_sent w) (app_log w) (Some p).

(** A fresh request context on the same process state. *)
Definition new_request (w : world) : world :=
  mkWorld (_jwks_cache w) (net w) (requests_sent w) (app_log w) None.

(** [r = requests.get(url, timeout=5); r.raise_for_status(); r.json()]:
    the three ways the fetch of lines 24-26 raises, or the parsed body. *)
Definition fetch_json (url : string) : M value := fun w =>
  let w' := mkWorld (_jwks_cache w) (net w) (S (requests_sent w))
                    (app_log w) (current_user w) in
  match net w url (requests_sent w) with
  | NoReply why => (Raise (OtherError why), w')
  | Reply status body =>
      if (400 <=? status) && (status <? 600)
      then (Raise (OtherError "HTTPError"), w')
      else match body with
           | Some j => (Ret j, w')
           | None => (Raise (OtherError "JSONDecodeError"), w')
           end
  end.

(** ** The token library *)

(** What a call into [jose.jwt] can do: return, raise
    [ExpiredSignatureError], raise another [JWTError], or let an exception
    of another class through. *)
Inductive jose_result (A : Type) : Type :=
| Decoded (a : A)
| ExpiredSignatureError
| JWTError (msg : string)
| Escapes (name : string).
Arguments Decoded {A} a.
Arguments ExpiredSignatureError {A}.
Arguments JWTError {A} msg.
Arguments Escapes {A} name.

(** The two entry points of [jose.jwt] the module calls.  Both yield a
    JSON object when they return.  [signature_valid alg key token] stands
    for the cryptographic check and [unverified_claims] for the body of the
    token read without any check; they only serve to state what the
    library promises and what a token carries. *)
Class Jose : Type := {
  jwt_get_unverified_header : string -> jose_result dict;
  jwt_decode : string -> dict -> list string -> string -> string
               -> jose_result dict;
  signature_valid : string -> dict -> string -> bool;
  unverified_claims : string -> option dict
}.

(** The promise of [jwt.decode] about [algorithms]: it returns only for a
    token whose header names an algorithm of the list and whose signature
    that algorithm validates under the key. *)
Definition decode_honours_algorithms (J : Jose) : Prop :=
  forall token key algorithms audience issuer payload,
    jwt_decode token key algorithms audience issuer = Decoded payload ->
    exists header alg,
      jwt_get_unverified_header token = Decoded header /\
      lookup "alg" header = Some (VStr alg) /\
      In alg algorithms /\
      signature_valid alg key token = true.

(** A token's [exp] claim lies before the instant [now]. *)
Definition exp_in_past (J : Jose) (now : Z) (token : string) : Prop :=
  exists claims exp,
    unverified_claims token = Some claims /\
    lookup "exp" claims = Some (VInt exp) /\
    exp < now.

(** ** auth.py *)

Definition ALGORITHMS : list string := ["RS256"].

(** The two descriptions with a letter outside ASCII, spelled by code
    point. *)
Definition DOMAIN_NOT_CONFIGURED : string :=
  "AUTH0_DOMAIN n" ++ String (ascii_of_nat 227) "o configurado".
Definition JWKS_UNAVAILABLE : string :=
  "JWKS indispon" ++ String (ascii_of_nat 237) "vel".

(** [_get_token_auth_header], on the value of
    [request.headers.get("Authorization", None)]. *)
Definition _get_token_auth_header (auth : option string) : res string :=
  match auth with
  | None => abort 401 "Authorization header is expected."
  | Some auth =>
      if negb (truthy (VStr auth))
      then abort 401 "Authorization header is expected."
      else
        let parts := split auth in
        p0 <- index parts 0 ;;
        if negb (String.eqb (lower p0) "bearer")
        then abort 401 "Authorization header must start with Bearer."
        else if Nat.eqb (length parts) 1
        then abort 401 "Token not found."
        else if Nat.ltb 2 (length parts)
        then abort 401 "Authorization header must be Bearer token."
        else index parts 1
  end.

(** The loop of lines 63-71: every key of the set is visited and the last
    one whose [kid] equals the token's is kept. *)
Fixpoint rsa_key_loop (keys : list value) (kid : value) (rsa_key : dict)
  : res dict :=
  match keys with
  | [] => Ret rsa_key
  | key :: keys' =>
      k <- get key "kid" ;;
      if py_eq k kid
      then
        kty <- get key "kty" ;;
        kid' <- get key "kid" ;;
        use <- get key "use" ;;
        n <- get key "n" ;;
        e <- get key "e" ;;
        rsa_key_loop keys' kid
          [("kty", kty); ("kid", kid'); ("use", use); ("n", n); ("e", e)]
      else rsa_key_loop keys' kid rsa_key
  end.

(** The loop of lines 95-98. *)
Fixpoint scope_loop (required_scopes : list string)
                    (token_scopes : list string) (perms : value) : res unit :=
  match required_scopes with
  | [] => Ret tt
  | scope :: rest =>
      if existsb (String.eqb scope) token_scopes
      then scope_loop rest token_scopes perms
      else
        b <- py_in (VStr scope) perms ;;
        if b then scope_loop rest token_scopes perms
        else abort 403 "insufficient_scope"
  end.

(** The optional scope check of lines 88-98. *)
Definition scope_check (required_scopes : option (list string))
                       (payload : dict) : res unit :=
  match required_scopes with
  | None | Some [] => Ret tt
  | Some required =>
      let token_scopes :=
        match lookup "scope" payload with
        | Some (VStr sc) => split sc
        | _ => []
        end in
      let perms :=
        match lookup "permissions" payload with
        | Some p => p
        | None => VList []
        end in
      scope_loop required token_scopes perms
  end.

(** [any(r.lower() == "admin" for r in roles)]: the generator stops at the
    first hit, and an element without [lower] raises when it is reached. *)
Fixpoint any_admin (roles : list value) : res bool :=
  match roles with
  | [] => Ret false
  | VStr r :: roles' =>
      if String.eqb (lower r) "admin" then Ret true else any_admin roles'
  | _ :: _ => Raise AttributeError
  end.

(** The loop of lines 123-126 over [payload.items()]. *)
Fixpoint namespaced_roles_loop (items : dict) : res bool :=
  match items with
  | [] => Ret false
  | (k, v) :: items' =>
      if endswith k "/roles"
      then match v with
           | VList l =>
               b <- any_admin l ;;
               if b then Ret true else namespaced_roles_loop items'
           | _ => namespaced_roles_loop items'
           end
      else namespaced_roles_loop items'
  end.

Definition is_admin_from_payload (payload : value) : res bool :=
  if negb (truthy payload) then Ret false
  else
    p <- get_default payload "permissions" (VList []) ;;
    let perms := if truthy p then p else VList [] in
    if match perms with
       | VList l => existsb (py_eq (VStr "delete:trip")) l
                    || existsb (py_eq (VStr "delete:investor")) l
       | _ => false
       end
    then Ret true
    else
      r1 <- get payload "roles" ;;
      roles <- (if truthy r1 then Ret r1 else get payload "role") ;;
      let roles := match roles with VStr s => VList [roles] | _ => roles end in
      b <- match roles with VList l => any_admin l | _ => Ret false end ;;
      if b then Ret true
      else match payload with
           | VDict d => namespaced_roles_loop d
           | _ => Raise AttributeError
           end.

(** The configuration read from the environment when the module is
    loaded. *)
Class Config : Type := {
  AUTH0_DOMAIN : string;
  API_AUDIENCE : string
}.

Section Auth.

Context {C : Config} {J : Jose}.

Definition get_jwks : M value := fun w =>
  if is_None (_jwks_cache w)
  then
    if negb (truthy (VStr AUTH0_DOMAIN))
    then (Ret VNone, logger_error DOMAIN_NOT_CONFIGURED None w)
    else
      let jwks_url := "https://" ++ AUTH0_DOMAIN ++ "/.well-known/jwks.json" in
      match fetch_json jwks_url w with
      | (Ret j, w1) =>
          let w2 := set_cache j w1 in (Ret (_jwks_cache w2), w2)
      | (Raise e, w1) =>
          let w2 := set_cache VNone
                      (logger_error "Erro ao buscar JWKS: %s" (Some e) w1) in
          (Ret (_jwks_cache w2), w2)
      end
  else (Ret (_jwks_cache w), w).

(** Lines 58-85 of [wrapper]: what is done with the key set once it is
    there. *)
Definition verify_with (jwks : value) (token : string) : res dict :=
  unverified_header <-
    match jwt_get_unverified_header token with
    | Decoded h => Ret h
    | ExpiredSignatureError | JWTError _ => abort 401 "Invalid header."
    | Escapes e => Raise (OtherError e)
    end ;;
  keys <- get_default jwks "keys" (VList []) ;;
  keys <- iter keys ;;
  kid <- get (VDict unverified_header) "kid" ;;
  rsa_key <- rsa_key_loop keys kid [] ;;
  if negb (truthy (VDict rsa_key))
  then abort 401 "Unable to find appropriate key"
  else
    match jwt_decode token rsa_key ALGORITHMS API_AUDIENCE
                     ("https://" ++ AUTH0_DOMAIN ++ "/") with
    | Decoded payload => Ret payload
    | ExpiredSignatureError => abort 401 "token expired"
    | JWTError e => abort 401 ("Invalid token: " ++ e)
    | Escapes e => Raise (OtherError e)
    end.

(** Lines 55-85 of [wrapper]: from the extracted token to the verified
    payload. *)
Definition verify (token : string) : M dict :=
  jwks <~ get_jwks ;;
  if is_None jwks then lift (abort 500 JWKS_UNAVAILABLE)
  else lift (verify_with jwks token).

(** Lines 54-85 of [wrapper]: from the request header to the verified
    payload. *)
Definition authenticate (auth : option string) : M dict :=
  token <~ lift (_get_token_auth_header auth) ;;
  verify token.

(** [requires_auth(required_scopes)(f)]: the [wrapper] that guards the
    operation [f], run on a request with the given Authorization header. *)
Definition requires_auth {R : Type} (required_scopes : option (list string))
                         (f : M R) (auth : option string) : M R :=
  payload <~ authenticate auth ;;
  _ <~ lift (scope_check required_scopes payload) ;;
  _ <~ (fun w => (Ret tt, set_current_user (VDict payload) w)) ;;
  f.

(** [requires_admin()(f)]: the admin [wrapper] under [requires_auth()]. *)
Definition requires_admin {R : Type} (f : M R) (auth : option string) : M R :=
  requires_auth None
    (payload <~ (fun w => (Ret (match current_user w with
                                | Some p => p
                                | None => VNone
                                end), w)) ;;
     admin <~ lift (is_admin_from_payload payload) ;;
     if negb admin then lift (abort 403 "Admin role required") else f)
    auth.

End Auth.

(** [register_auth_error_handlers]: the body and status each handler
    answers with, and the handler an exception of a request is dispatched
    to.  An [abort] goes to the handler registered for its status.  An
    exception that is no [HTTPException] is wrapped by the framework in
    its [InternalServerError], whose status is 500, and handed to the
    handler registered for 500, which reads the description that class
    carries. *)
Definition unauthorized (description : string) : value * Z :=
  (VDict [("error", VStr "unauthorized"); ("message", VStr description)], 401).

Definition forbidden (description : string) : value * Z :=
  (VDict [("error", VStr "forbidden"); ("message", VStr description)], 403).

Definition internal (description : string) : value * Z :=
  (VDict [("error", VStr "internal_server_error");
          ("message", VStr description)], 500).

(** The description of the framework's [InternalServerError]. *)
Definition INTERNAL_SERVER_ERROR_DESCRIPTION : string :=
  "The server encountered an internal error and was unable to complete your request. Either the server is overloaded or there is an error in the application.".

Definition errorhandler (e : exn) : option (value * Z) :=
  match e with
  | HTTPException code description =>
      if code =? 401 then Some (unauthorized description)
      else if code =? 403 then Some (forbidden description)
      else if code =? 500 then Some (internal description)
      else None
  | _ => Some (internal INTERNAL_SERVER_ERROR_DESCRIPTION)
  end.

(** The process serving requests one after the other, each in a fresh
    request context on the shared cache; a request is the value of its
    Authorization header. *)
Fixpoint serve {C : Config} {J : Jose} {R : Type}
               (required_scopes : option (list string)) (f : M R)
               (requests : list (option string)) (w : world)
  : list (res R) * world :=
  match requests with
  | [] => ([], w)
  | auth :: rest =>
      let (r, w1) := requires_auth required_scopes f auth (new_request w) in
      let (rs, w2) := serve required_scopes f rest w1 in
      (r :: rs, w2)
  end.

(** The URL [get_jwks] fetches. *)
Definition jwks_url {C : Config} : string :=
  "https://" ++ AUTH0_DOMAIN ++ "/.well-known/jwks.json".

(** A reply on which lines 24-26 raise. *)
Definition reply_fails (r : http_reply) : bool :=
  match r with
  | NoReply _ => true
  | Reply status body =>
      ((400 <=? status) && (status <? 600))
      || match body with None => true | Some _ => false end
  end.

(** The [n]-th fetch cannot succeed: no issuer domain is configured, or
    the request fails. *)
Definition fetch_down {C : Config} (w : world) (n : nat) : Prop :=
  AUTH0_DOMAIN = "" \/ reply_fails (net w jwks_url n) = true.

(** ** The specification's vocabulary *)

(** The failure taxonomy of the specification. *)
Inductive failure : Type :=
| MissingHeader | MalformedScheme | MissingToken | ExtraTokenParts
| MalformedToken | KeyStoreUnavailable | UnknownSigningKey
| TokenExpired | InvalidToken | InsufficientScope | NotAdmin.

(** The status the specification gives each failure. *)
Definition spec_status (k : failure) : Z :=
  match k with
  | KeyStoreUnavailable => 500
  | InsufficientScope | NotAdmin => 403
  | _ => 401
  end.

(** The [error] value the specification's response carries for a status. *)
Definition spec_error (status : Z) : string :=
  if status =? 500 then "internal_server_error"
  else if status =? 403 then "forbidden"
  else "unauthorized".

(** The failure a description of [auth.py] stands for. *)
Definition failure_of (description : string) : option failure :=
  if String.eqb description "Authorization header is expected."
  then Some MissingHeader
  else if String.eqb description "Authorization header must start with Bearer."
  then Some MalformedScheme
  else if String.eqb description "Token not found."
  then Some MissingToken
  else if String.eqb description "Authorization header must be Bearer token."
  then Some ExtraTokenParts
  else if String.eqb description "Invalid header."
  then Some MalformedToken
  else if String.eqb description JWKS_UNAVAILABLE
  then Some KeyStoreUnavailable
  else if String.eqb description "Unable to find appropriate key"
  then Some UnknownSigningKey
  else if String.eqb description "token expired"
  then Some TokenExpired
  else if String.prefix "Invalid token: " description
  then Some InvalidToken
  else if String.eqb description "insufficient_scope"
  then Some InsufficientScope
  else if String.eqb description "Admin role required"
  then Some NotAdmin
  else None.

(** A malformed Authorization header in the specification's words: absent,
    or not exactly two tokens of which the first is "Bearer" in any case
    (an empty or blank header has no token at all). *)
Definition spec_malformed (auth : option string) : Prop :=
  match auth with
  | None => True
  | Some a =>
      match split a with
      | [scheme; _] => lower scheme <> "bearer"
      | _ => True
      end
  end.

Definition is_admin_str (r : value) : bool :=
  match r with
  | VStr s => String.eqb (lower s) "admin"
  | _ => false
  end.

(** A claim value, string or list, that contains "admin" in any case. *)
Definition names_admin (v : value) : bool :=
  match v with
  | VStr _ => is_admin_str v
  | VList l => existsb is_admin_str l
  | _ => false
  end.

Definition claim (d : dict) (k : string) : value :=
  match lookup k d with
  | Some v => v
  | None => VNone
  end.

(** Marker (a): a list-valued "permissions" claim with a delete marker. *)
Definition admin_by_permissions (d : dict) : bool :=
  match claim d "permissions" with
  | VList l => existsb (py_eq (VStr "delete:trip")) l
               || existsb (py_eq (VStr "delete:investor")) l
  | _ => false
  end.

(** Marker (c): a claim under a key ending in "/roles" that is a list
    containing "admin". *)
Definition admin_by_namespaced_roles (d : dict) : bool :=
  existsb (fun kv => endswith (fst kv) "/roles" &&
                     match snd kv with
                     | VList l => existsb is_admin_str l
                     | _ => false
                     end) d.

(** The administrator check in the specification's words: marker (b) looks
    at the "roles" claim and at the "role" claim. *)
Definition spec_is_admin (d : dict) : bool :=
  admin_by_permissions d
  || (names_admin (claim d "roles") || names_admin (claim d "role"))
  || admin_by_namespaced_roles d.

(** The role claim the code reads: "roles" when it is truthy, "role"
    otherwise. *)
Definition selected_roles (d : dict) : value :=
  if truthy (claim d "roles") then claim d "roles" else claim d "role".

(** The administrator check with marker (b) read off the selected claim. *)
Definition admin_markers (d : dict) : bool :=
  admin_by_permissions d
  || names_admin (selected_roles d)
  || admin_by_namespaced_roles d.

Definition is_str (v : value) : bool :=
  match v with VStr _ => true | _ => false end.

Definition strings_only (v : value) : bool :=
  match v with
  | VList l => forallb is_str l
  | _ => true
  end.

(** Every role list of the payload holds strings only. *)
Definition role_lists_hold_strings (d : dict) : bool :=
  strings_only (selected_roles d)
  && forallb (fun kv => negb (endswith (fst kv) "/roles")
                        || strings_only (snd kv)) d.

(** The scope check in the specification's words: every required scope is
    a token of a string-valued "scope" claim or an element of a list-valued
    "permissions" claim. *)
Definition spec_scopes_granted (required : list string) (payload : dict) : bool :=
  forallb (fun scope =>
             match lookup "scope" payload with
             | Some (VStr sc) => existsb (String.eqb scope) (split sc)
             | _ => false
             end
             || match lookup "permissions" payload with
                | Some (VList l) => existsb (py_eq (VStr scope)) l
                | _ => false
                end) required.

(** A key set with its [keys] collection. *)
Definition holds_keys (j : value) : bool :=
  match j with
  | VDict d => match lookup "keys" d with
               | Some (VList _) => true
               | _ => false
               end
  | _ => false
  end.

(** The cache invariant in the specification's words: nothing, or a key
    set with its [keys]. *)
Definition spec_cache_populated (w : world) : Prop :=
  _jwks_cache w = VNone \/ holds_keys (_jwks_cache w) = true.

(** The answer to a request while no key set can be had. *)
Definition answer_while_down {R : Type} (auth : option string) : res R :=
  match _get_token_auth_header auth with
  | Ret _ => Raise (HTTPException 500 JWKS_UNAVAILABLE)
  | Raise e => Raise e
  end.

(** The calls of [abort] in [auth.py], by status and description. *)
Inductive abort_site : Z -> string -> Prop :=
| site_header_expected : abort_site 401 "Authorization header is expected."
| site_not_bearer :
    abort_site 401 "Authorization header must start with Bearer."
| site_token_not_found : abort_site 401 "Token not found."
| site_extra_parts :
    abort_site 401 "Authorization header must be Bearer token."
| site_jwks_unavailable : abort_site 500 JWKS_UNAVAILABLE
| site_invalid_header : abort_site 401 "Invalid header."
| site_no_key : abort_site 401 "Unable to find appropriate key"
| site_expired : abort_site 401 "token expired"
| site_invalid_token m : abort_site 401 ("Invalid token: " ++ m)
| site_insufficient_scope : abort_site 403 "insufficient_scope"
| site_admin_required : abort_site 403 "Admin role required".

(** A failure response as the specification describes it: the failure is
    one of the taxonomy, its status is the one the specification gives it,
    and the body is [{"error": ..., "message": ...}]. *)
Definition spec_failure_response (code : Z) (description : string) : Prop :=
  exists k,
    failure_of description = Some k /\
    code = spec_status k /\
    errorhandler (HTTPException code description)
    = Some (VDict [("error", VStr (spec_error code));
                   ("message", VStr description)], code) /\
    (code = 500 <-> k = KeyStoreUnavailable) /\
    (code = 403 <-> (k = InsufficientScope \/ k = NotAdmin)) /\
    (code = 401 <-> (k <> KeyStoreUnavailable /\ k <> InsufficientScope
                     /\ k <> NotAdmin)) /\
    (code = 403 -> spec_error code = "forbidden").

(** ** A small token library and deployment to run the module on *)

Module Lab.

Definition now : Z := 1700000000.

Definition config : Config := {|
  AUTH0_DOMAIN := "tenant.example";
  API_AUDIENCE := "https://api.example"
|}.

Definition header (alg kid : string) : dict :=
  [("alg", VStr alg); ("typ", VStr "JWT"); ("kid", VStr kid)].

(** The header each token of the lab carries; "junk" is not a token. *)
Definition header_of (token : string) : jose_result dict :=
  if String.eqb token "junk" then JWTError "Error decoding token headers."
  else if String.eqb token "stray" then Decoded (header "RS256" "k9")
  else if String.eqb token "hmac" then Decoded (header "HS256" "k1")
  else Decoded (header "RS256" "k1").

Definition claims (exp : Z) (extra : dict) : dict :=
  ([("iss", VStr "https://tenant.example/");
   ("aud", VStr "https://api.example");
   ("exp", VInt exp)] ++ extra)%list.

Definition claims_of (token : string) : option dict :=
  if String.eqb token "junk" then None
  else if String.eqb token "old" then Some (claims 1600000000 [])
  else if String.eqb token "stray" then Some (claims 1600000000 [])
  else if String.eqb token "reader"
  then Some (claims 1800000000 [("scope", VStr "read:trips write:trips")])
  else if String.eqb token "root"
  then Some (claims 1800000000 [("permissions", VList [VStr "delete:trip"])])
  else if String.eqb token "odd"
  then Some (claims 1800000000 [("roles", VList [VInt 1])])
  else if String.eqb token "loose"
  then Some (claims 1800000000 [("permissions", VStr "unread:trips")])
  else Some (claims 1800000000 []).

(** Only the key "k1" has signed tokens, with RS256; "forged" carries a
    signature that does not match. *)
Definition sig_ok (alg : string) (key : dict) (token : string) : bool :=
  String.eqb alg "RS256"
  && py_eq (claim key "kid") (VStr "k1")
  && negb (String.eqb token "forged").

(** Decoding as the library documents it: the algorithm is checked against
    the allowed ones, then the signature, then the claims. *)
Definition decode (token : string) (key : dict) (algorithms : list string)
                  (audience issuer : string) : jose_result dict :=
  match header_of token with
  | Decoded h =>
      match lookup "alg" h with
      | Some (VStr alg) =>
          if negb (existsb (String.eqb alg) algorithms)
          then JWTError "The specified alg value is not allowed"
          else if negb (sig_ok alg key token)
          then JWTError "Signature verification failed."
          else
            match claims_of token with
            | Some c =>
                match lookup "exp" c with
                | Some (VInt exp) =>
                    if exp <? now then ExpiredSignatureError
                    else if negb (py_eq (claim c "aud") (VStr audience))
                    then JWTError "Invalid audience"
                    else if negb (py_eq (claim c "iss") (VStr issuer))
                    then JWTError "Invalid issuer"
                    else Decoded c
                | _ => JWTError "Expiration Time claim (exp) must be an integer."
                end
            | None => JWTError "Invalid payload string"
            end
      | _ => JWTError "No algorithm was specified in the JWS header."
      end
  | _ => JWTError "Error decoding token headers."
  end.

Definition jose : Jose := {|
  jwt_get_unverified_header := header_of;
  jwt_decode := decode;
  signature_valid := sig_ok;
  unverified_claims := claims_of
|}.

Definition key1 : value :=
  VDict [("kty", VStr "RSA"); ("kid", VStr "k1"); ("use", VStr "sig");
         ("n", VStr "sXch"); ("e", VStr "AQAB"); ("alg", VStr "RS256")].

Definition jwks : value := VDict [("keys", VList [key1])].

Definition offline : string -> nat -> http_reply :=
  fun _ _ => NoReply "ConnectionError".

Definition online (body : value) : string -> nat -> http_reply :=
  fun _ _ => Reply 200 (Some body).

(** A process that has not fetched the key set yet. *)
Definition cold (network : string -> nat -> http_reply) : world :=
  mkWorld VNone network 0 [] None.

(** A process holding the key set. *)
Definition warm : world := mkWorld jwks offline 1 [] None.

(** A protected operation that answers 204. *)
Definition handler : M Z := fun w => (Ret 204, w).

Definition guard (required_scopes : option (list string)) (auth : option string)
  : M Z :=
  requires_auth (C := config) (J := jose) required_scopes handler auth.

Definition admin_guard (auth : option string) : M Z :=
  requires_admin (C := config) (J := jose) handler auth.

End Lab.

(** A string without a white-space character. *)
Fixpoint spaceless (s : string) : bool :=
  match s with
  | EmptyString => true
  | String c s' => negb (is_space c) && spaceless s'
  end.

(** A string of white space only. *)
Fixpoint blank (s : string) : bool :=
  match s with
  | EmptyString => true
  | String c s' => is_space c && blank s'
  end.

(** The tokens line 92 reads off a string-valued "scope" claim. *)
Definition scope_tokens (payload : dict) : list string :=
  match lookup "scope" payload with
  | Some (VStr sc) => split sc
  | _ => []
  end.

(** The five fields line 65 copies from a key of the set. *)
Definition rsa_fields (key : dict) : dict :=
  [("kty", claim key "kty"); ("kid", claim key "kid");
   ("use", claim key "use"); ("n", claim key "n"); ("e", claim key "e")].

(** A key of the set that is an object whose [kid] differs from [kid]. *)
Definition other_key (kid : value) (key : value) : Prop :=
  exists d, key = VDict d /\ py_eq (claim d "kid") kid = false.

Definition is_dict (v : value) : bool :=
  match v with VDict _ => true | _ => false end.

(** A value a [for] loop or [in] cannot walk. *)
Definition not_iterable (v : value) : bool :=
  match v with
  | VNone | VBool _ | VInt _ => true
  | _ => false
  end.

(** ** app.py *)

Module App.

(** [s.lstrip()], [s.rstrip()] and [s.strip()]. *)
Fixpoint lstrip (s : string) : string :=
  match s with
  | EmptyString => EmptyString
  | String c s' => if is_space c then lstrip s' else s
  end.

Fixpoint rstrip (s : string) : string :=
  match s with
  | EmptyString => EmptyString
  | String c s' =>
      let r := rstrip s' in
      if is_space c && String.eqb r "" then EmptyString else String c r
  end.

Definition strip (s : string) : string := rstrip (lstrip s).

(** [s.split(sep)] for a separator of one character: the pieces between
    the separators, empty ones included. *)
Fixpoint split_on (sep : ascii) (s : string) : list string :=
  match s with
  | EmptyString => [EmptyString]
  | String c s' =>
      if Ascii.eqb c sep then EmptyString :: split_on sep s'
      else match split_on sep s' with
           | w :: ws => String c w :: ws
           | [] => [String c EmptyString]
           end
  end.

(** [s[:n]]. *)
Fixpoint take (n : nat) (s : string) : string :=
  match n, s with
  | S n', String c s' => String c (take n' s')
  | _, _ => EmptyString
  end.

(** [d[k] = v] on the items of a dict: the value under an existing key is
    replaced where it stands, a new key goes to the end. *)
Fixpoint dict_set {V : Type} (k : string) (v : V) (d : list (string * V))
  : list (string * V) :=
  match d with
  | [] => [(k, v)]
  | (k', v') :: d' =>
      if String.eqb k k' then (k', v) :: d' else (k', v') :: dict_set k v d'
  end.

Fixpoint dict_get {V : Type} (k : string) (d : list (string * V)) : option V :=
  match d with
  | [] => None
  | (k', v) :: d' => if String.eqb k k' then Some v else dict_get k d'
  end.

(** [os.getenv(name)] is [None] for a variable that is not set. *)
Definition getenv_truthy (x : option string) : bool :=
  match x with
  | Some s => truthy (VStr s)
  | None => false
  end.

(** Lines 35-40: the allowed origins, the string "*" or a list of
    strings. *)
Definition cors_origins (FRONTEND_ORIGINS CORS_ORIGINS : option string) : value :=
  let _raw_origins :=
    match FRONTEND_ORIGINS, CORS_ORIGINS with
    | Some a, Some b =>
        if truthy (VStr a) then a
        else if truthy (VStr b) then b else "http://localhost:5173"
    | Some a, None => if truthy (VStr a) then a else "http://localhost:5173"
    | None, Some b => if truthy (VStr b) then b else "http://localhost:5173"
    | None, None => "http://localhost:5173"
    end in
  let _raw_origins := strip _raw_origins in
  if String.eqb _raw_origins "*" || String.eqb (lower _raw_origins) "any"
  then VStr "*"
  else VList (map (fun o => VStr (strip o))
                  (filter (fun o => truthy (VStr (strip o)))
                          (split_on "," _raw_origins))).

(** A response: body, status and the headers the code sets on it. *)
Record response : Type := mkResponse {
  resp_body : string;
  resp_status : Z;
  resp_headers : list (string * string)
}.

(** The headers lines 74-79 set for an allowed origin. *)
Definition preflight_headers (allowed_origin : string) : list (string * string) :=
  dict_set "Access-Control-Max-Age" "3600"
    (dict_set "Access-Control-Allow-Credentials" "true"
       (dict_set "Access-Control-Allow-Headers"
                 "Authorization,Content-Type,Accept,Idempotency-Key"
          (dict_set "Access-Control-Allow-Methods" "GET,POST,PUT,DELETE,OPTIONS"
             (dict_set "Vary" "Origin"
                (dict_set "Access-Control-Allow-Origin" allowed_origin []))))).

(** [handle_preflight], on the request's method and its Origin header:
    [None] lets the request go on, a response ends it. *)
Definition handle_preflight (cors_origins : value) (method : string)
                            (origin : option string) : res (option response) :=
  if negb (String.eqb method "OPTIONS") then Ret None
  else
    allowed_origin <-
      (if py_eq cors_origins (VStr "*")
       then Ret (Some "*")
       else match origin with
            | Some o =>
                if truthy (VStr o)
                then b <- py_in (VStr o) cors_origins ;;
                     Ret (if b then Some o else None)
                else Ret None
            | None => Ret None
            end) ;;
    Ret (Some (mkResponse "" 204
                 (match allowed_origin with
                  | Some a => if truthy (VStr a) then preflight_headers a else []
                  | None => []
                  end))).

(** What [log_request_info] reads of a request. *)
Record request : Type := mkRequest {
  req_method : string;
  req_path : string;
  req_headers : list (string * string);
  req_data : string
}.

(** A record of [app.logger.debug(msg, method, path, hdrs, body_preview)]. *)
Record debug_record : Type := mkDebug {
  dbg_msg : string;
  dbg_method : string;
  dbg_path : string;
  dbg_hdrs : list (string * string);
  dbg_body_preview : string
}.

Definition LOGGED_HEADERS : list string := ["Host"; "Origin"; "Content-Type"].

(** The dict comprehension of line 89. *)
Fixpoint logged_hdrs (items : list (string * string))
                     (hdrs : list (string * string)) : list (string * string) :=
  match items with
  | [] => hdrs
  | (k, v) :: items' =>
      if existsb (String.eqb k) LOGGED_HEADERS
      then logged_hdrs items' (dict_set k v hdrs)
      else logged_hdrs items' hdrs
  end.

(** [log_request_info]: the record written to the log, if any. *)
Definition log_request_info (r : request) : option debug_record :=
  if String.eqb (req_method r) "OPTIONS" then None
  else
    let hdrs := logged_hdrs (req_headers r) [] in
    let body_preview :=
      if truthy (VStr (req_data r)) then take 500 (req_data r) else "" in
    Some (mkDebug "Incoming request: %s %s headers=%s body_preview=%s"
                  (req_method r) (req_path r) hdrs body_preview).

(** What the module takes from its libraries: dates with [isoformat],
    [float(x)] ([None] when it raises), object identifiers, [str(x)], and
    the [insert_one] of a collection. *)
Class Backend : Type := {
  datetime : Type;
  isoformat : datetime -> string;
  float : Type;
  py_float : value -> option float;
  ObjectId : Type;
  str_ObjectId : ObjectId -> string
}.

Section Documents.

Context {B : Backend}.

(** A value stored in a document. *)
Inductive stored : Type :=
| SDatetime (t : datetime)
| SFloat (f : float)
| SObjectId (o : ObjectId)
| SValue (v : value).

Definition document : Type := list (string * stored).

(** [str(x)] on the values [serialize_doc] meets under "_id": the text of
    an identifier, a string itself; [str_other] stands for the rest. *)
Definition py_str (str_other : stored -> string) (x : stored) : string :=
  match x with
  | SObjectId o => str_ObjectId o
  | SValue (VStr s) => s
  | _ => str_other x
  end.

(** The loop of lines 117-119 over the snapshot [list(doc.items())]. *)
Fixpoint isoformat_loop (items : document) (doc : document) : document :=
  match items with
  | [] => doc
  | (k, SDatetime t) :: items' =>
      isoformat_loop items' (dict_set k (SValue (VStr (isoformat t))) doc)
  | _ :: items' => isoformat_loop items' doc
  end.

Definition serialize_doc (str_other : stored -> string) (doc : document)
  : document :=
  let doc :=
    match dict_get "_id" doc with
    | Some v => dict_set "_id" (SValue (VStr (py_str str_other v))) doc
    | None => doc
    end in
  isoformat_loop doc doc.

(** The same on a document whose keys are distinct, item by item. *)
Definition serialize_item (str_other : stored -> string) (kv : string * stored)
  : string * stored :=
  if String.eqb (fst kv) "_id"
  then (fst kv, SValue (VStr (py_str str_other (snd kv))))
  else match snd kv with
       | SDatetime t => (fst kv, SValue (VStr (isoformat t)))
       | _ => kv
       end.

Definition is_datetime (x : stored) : bool :=
  match x with SDatetime _ => true | _ => false end.

(** What the loop of lines 117-119 makes of one item. *)
Definition isoformat_item (kv : string * stored) : string * stored :=
  match snd kv with
  | SDatetime t => (fst kv, SValue (VStr (isoformat t)))
  | _ => kv
  end.

(** A collection of the database with its [insert_one], which hands back
    the identifier it gave the document. *)
Class Store : Type := {
  collection : Type;
  insert_one : document -> collection -> ObjectId * collection
}.

Context {St : Store}.

(** The two error messages of [create_investor], with their letters
    outside ASCII spelled by code point. *)
Definition REQUIRED_FIELDS : string :=
  "Campos obrigat" ++ String (ascii_of_nat 243)
    "rios: name, corretora, valor_investido, perfil".
Definition NOT_NUMERIC : string :=
  "valor_investido deve ser num" ++ String (ascii_of_nat 233) "rico".

Definition error_body (message : string) : document :=
  [("error", SValue (VStr message))].

(** The document line 147 builds. *)
Definition investor_doc (name corretora : value) (valor_float : float)
                        (perfil : value) (created_at : datetime) : document :=
  [("name", SValue name); ("corretora", SValue corretora);
   ("valor_investido", SFloat valor_float); ("perfil", SValue perfil);
   ("created_at", SDatetime created_at)].

(** [create_investor], the view under the guard: on the value of
    [request.get_json()], the instant [datetime.utcnow()] returns and the
    investors collection; it answers with a JSON body and a status. *)
Definition create_investor (json : value) (utcnow : datetime) (db : collection)
  : res ((document * Z) * collection) :=
  let data := if truthy json then json else VDict [] in
  n <- get data "name" ;;
  name <- (if truthy n then Ret n else get data "nome") ;;
  corretora <- get data "corretora" ;;
  v <- get data "valor_investido" ;;
  valor <- (if truthy v then Ret v else get data "valor") ;;
  perfil <- get data "perfil" ;;
  if negb (truthy name && truthy corretora && truthy valor && truthy perfil)
  then Ret ((error_body REQUIRED_FIELDS, 400), db)
  else
    match py_float valor with
    | None => Ret ((error_body NOT_NUMERIC, 400), db)
    | Some valor_float =>
        let doc := investor_doc name corretora valor_float perfil utcnow in
        let (inserted_id, db') := insert_one doc db in
        let doc := dict_set "_id" (SValue (VStr (str_ObjectId inserted_id))) doc in
        let doc := dict_set "created_at" (SValue (VStr (isoformat utcnow))) doc in
        Ret ((doc, 201), db')
    end.

End Documents.

(** A backend to run the views on: instants and amounts are integers,
    identifiers are counters. *)
Module Lab.

Definition backend : Backend := {|
  datetime := Z;
  isoformat := fun t => if t =? 0 then "1970-01-01T00:00:00" else "2024-01-01T00:00:00";
  float := Z;
  py_float := fun v => match v with
                       | VInt z => Some z
                       | VBool b => Some (if b then 1 else 0)
                       | _ => None
                       end;
  ObjectId := nat;
  str_ObjectId := fun o => match o with
                           | O => "65a000000000000000000000"
                           | _ => "65a000000000000000000001"
                           end
|}.

Definition store : Store (B := backend) := {|
  collection := list (document (B := backend));
  insert_one := fun doc db =>
    (length db, (db ++ [doc ++ [("_id", SObjectId (B := backend) (length db))]])%list)
|}.

Definition str_other : stored (B := backend) -> string := fun _ => "?".

End Lab.

End App.

(** ** The order of the checks in the token library *)

(** The claims [jwt.decode] validates before [exp]: [iat], an integer when
    it is there, and [nbf], an integer not after [now] when it is there. *)
Definition claims_pass_before_exp (now : Z) (claims : dict) : Prop :=
  (lookup "iat" claims = None \/ exists z, lookup "iat" claims = Some (VInt z)) /\
  (lookup "nbf" claims = None \/
   exists z, lookup "nbf" claims = Some (VInt z) /\ z <= now).

(** What [jwt.decode] does with a token whose [exp] lies before [now],
    whose header names an allowed algorithm, and for a key [usable] as a
    public key: the signature is checked first, and the claims, in the
    order [iat], [nbf], [exp], only when it validates. *)
Definition decode_checks_in_order (J : Jose) (now : Z) (usable : dict -> Prop)
  : Prop :=
  forall token key algorithms audience issuer header alg claims exp,
    usable key ->
    jwt_get_unverified_header token = Decoded header ->
    lookup "alg" header = Some (VStr alg) ->
    In alg algorithms ->
    unverified_claims token = Some claims ->
    lookup "exp" claims = Some (VInt exp) ->
    exp < now ->
    (signature_valid alg key token = false ->
     jwt_decode token key algorithms audience issuer
     = JWTError "Signature verification failed.") /\
    (signature_valid alg key token = true ->
     claims_pass_before_exp now claims ->
     jwt_decode token key algorithms audience issuer = ExpiredSignatureError).

(** A token library that makes its checks in the order of [jose.jwt]:
    the algorithm against the allowed ones, the signature, then the claims
    [iat], [nbf], [exp], [aud] and [iss].  All its tokens expired at
    1600000000; "stale-forged" carries a signature that does not match,
    "stale-early" an [nbf] that has not come, "stale-hmac" names HS256. *)
Module Stale.

Definition header_of (token : string) : jose_result dict :=
  if String.eqb token "stale-hmac" then Decoded (Lab.header "HS256" "k1")
  else Decoded (Lab.header "RS256" "k1").

Definition claims_of (token : string) : option dict :=
  if String.eqb token "stale-early"
  then Some (Lab.claims 1600000000 [("nbf", VInt 1900000000)])
  else Some (Lab.claims 1600000000 []).

Definition sig_ok (alg : string) (key : dict) (token : string) : bool :=
  py_eq (claim key "kid") (VStr "k1")
  && negb (String.eqb token "stale-forged").

(** The checks on [exp], [aud] and [iss]. *)
Definition validate_exp_aud_iss (c : dict) (audience issuer : string)
  : jose_result dict :=
  match lookup "exp" c with
  | Some (VInt exp) =>
      if exp <? Lab.now then ExpiredSignatureError
      else if negb (py_eq (claim c "aud") (VStr audience))
      then JWTError "Invalid audience"
      else if negb (py_eq (claim c "iss") (VStr issuer))
      then JWTError "Invalid issuer"
      else Decoded c
  | _ => JWTError "Expiration Time claim (exp) must be an integer."
  end.

Definition decode (token : string) (key : dict) (algorithms : list string)
                  (audience issuer : string) : jose_result dict :=
  match header_of token with
  | Decoded h =>
      match lookup "alg" h with
      | Some (VStr alg) =>
          if negb (existsb (String.eqb alg) algorithms)
          then JWTError "The specified alg value is not allowed"
          else if negb (sig_ok alg key token)
          then JWTError "Signature verification failed."
          else
            match claims_of token with
            | Some c =>
                match lookup "iat" c with
                | None | Some (VInt _) =>
                    match lookup "nbf" c with
                    | None => validate_exp_aud_iss c audience issuer
                    | Some (VInt nbf) =>
                        if Lab.now <? nbf
                        then JWTError "The token is not yet valid (nbf)"
                        else validate_exp_aud_iss c audience issuer
                    | Some _ =>
                        JWTError "Not Before claim (nbf) must be an integer."
                    end
                | Some _ => JWTError "Issued At claim (iat) must be an integer."
                end
            | None => JWTError "Invalid payload string"
            end
      | _ => JWTError "No algorithm was specified in the JWS header."
      end
  | _ => JWTError "Error decoding token headers."
  end.

Definition jose : Jose := {|
  jwt_get_unverified_header := header_of;
  jwt_decode := decode;
  signature_valid := sig_ok;
  unverified_claims := claims_of
|}.

Definition guard (auth : option string) : M Z :=
  requires_auth (C := Lab.config) (J := jose) None Lab.handler auth.

End Stale.

(** ** Header extraction *)

(** What [_get_token_auth_header] does on every header: it returns the
    second of exactly two tokens after a "Bearer", aborts with 401 on a
    malformed header that has a first token or is empty or absent, and
    raises [IndexError] on a non-empty header made of white space. *)
Lemma header_cases (auth : option string) :
  match _get_token_auth_header auth with
  | Ret token =>
      exists a scheme,
        auth = Some a /\ split a = [scheme; token] /\ lower scheme = "bearer"
  | Raise (HTTPException code _) => code = 401 /\ spec_malformed auth
  | Raise IndexError => exists a, auth = Some a /\ a <> "" /\ split a = []
  | Raise _ => False
  end.
Proof.
  destruct auth as [a|]; simpl; [|split; [reflexivity|exact I]].
  destruct (String.eqb_spec a "") as [->|Hne]; simpl.
  - split; [reflexivity|exact I].
  - destruct (split a) as [|p0 [|p1 [|p2 rest]]] eqn:Hs; simpl.
    + exists a. repeat split; assumption.
    + destruct (String.eqb_spec (lower p0) "bearer"); simpl;
        (split; [reflexivity|exact I]).
    + destruct (String.eqb_spec (lower p0) "bearer"); simpl.
      * exists a, p0. repeat split; assumption.
      * split; [reflexivity|assumption].
    + destruct (String.eqb_spec (lower p0) "bearer"); simpl;
        (split; [reflexivity|exact I]).
Qed.

(** A malformed header that is not blank is answered by an abort with 401. *)
Lemma malformed_header_aborts_401 (auth : option string) :
  spec_malformed auth ->
  (forall a, auth = Some a -> split a = [] -> a = "") ->
  exists description,
    _get_token_auth_header auth = Raise (HTTPException 401 description).
Proof.
  intros Hbad Hblank.
  pose proof (header_cases auth) as H.
  destruct (_get_token_auth_header auth) as [token|[code d| | | |n]].
  - destruct H as (a & scheme & -> & Hs & Hl).
    simpl in Hbad. rewrite Hs in Hbad. contradiction.
  - destruct H as [-> _]. exists d. reflexivity.
  - destruct H as (a & -> & Hne & Hs).
    elim Hne. apply Hblank; [reflexivity|assumption].
  - contradiction.
  - contradiction.
  - contradiction.
Qed.

Section Guard.

Context {C : Config} {J : Jose}.

(** *** How the guard is put together *)

Lemma authenticate_without_token auth e w :
  _get_token_auth_header auth = Raise e ->
  authenticate auth w = (Raise e, w).
Proof.
  intros H. unfold authenticate, bindM, lift. rewrite H. reflexivity.
Qed.

Lemma authenticate_with_token auth token w :
  _get_token_auth_header auth = Ret token ->
  authenticate auth w = verify token w.
Proof.
  intros H. unfold authenticate, bindM, lift. rewrite H. reflexivity.
Qed.

(** A failure of the authentication ends [wrapper]: the operation is not
    reached, whatever it is. *)
Lemma requires_auth_raise {R} scopes (f : M R) auth w e w' :
  authenticate auth w = (Raise e, w') ->
  requires_auth scopes f auth w = (Raise e, w').
Proof.
  intros H. unfold requires_auth, bindM. rewrite H. reflexivity.
Qed.

Lemma requires_auth_ret {R} scopes (f : M R) auth w payload w' :
  authenticate auth w = (Ret payload, w') ->
  requires_auth scopes f auth w =
  match scope_check scopes payload with
  | Ret _ => f (set_current_user (VDict payload) w')
  | Raise e => (Raise e, w')
  end.
Proof.
  intros H. unfold requires_auth, bindM, lift. rewrite H.
  destruct (scope_check scopes payload); reflexivity.
Qed.

(** *** The key provider *)

(** [get_jwks] always returns, and what it returns is what the cache holds
    afterwards. *)
Lemma get_jwks_returns w :
  exists w', get_jwks w = (Ret (_jwks_cache w'), w') /\
             net w' = net w /\ current_user w' = current_user w.
Proof.
  unfold get_jwks, fetch_json.
  destruct (is_None (_jwks_cache w)) eqn:Hc.
  - destruct (negb (truthy (VStr AUTH0_DOMAIN))).
    + exists (logger_error DOMAIN_NOT_CONFIGURED None w).
      split; [|split; reflexivity]. cbn.
      destruct (_jwks_cache w); try discriminate. reflexivity.
    + destruct (net w _ (requests_sent w)) as [why|status [j|]];
        [|destruct ((400 <=? status) && (status <? 600))..];
        eexists; (split; [reflexivity|split; reflexivity]).
  - exists w. repeat split.
Qed.

Lemma get_jwks_cached w :
  is_None (_jwks_cache w) = false ->
  get_jwks w = (Ret (_jwks_cache w), w).
Proof.
  intros H. unfold get_jwks. rewrite H. reflexivity.
Qed.

Lemma domain_unset_falsy : AUTH0_DOMAIN = "" -> truthy (VStr AUTH0_DOMAIN) = false.
Proof. intros ->. reflexivity. Qed.

Lemma domain_set_truthy : AUTH0_DOMAIN <> "" -> truthy (VStr AUTH0_DOMAIN) = true.
Proof.
  intros H. simpl. destruct (String.eqb_spec AUTH0_DOMAIN ""); [contradiction|reflexivity].
Qed.

(** A fetch that cannot succeed: [get_jwks] writes one record to the log,
    returns [None] and leaves the cache empty. *)
Lemma get_jwks_down w :
  _jwks_cache w = VNone ->
  fetch_down w (requests_sent w) ->
  exists w',
    get_jwks w = (Ret VNone, w') /\
    _jwks_cache w' = VNone /\
    net w' = net w /\
    (requests_sent w <= requests_sent w' <= S (requests_sent w))%nat /\
    (exists r, app_log w' = (app_log w ++ [r])%list) /\
    current_user w' = current_user w.
Proof.
  intros Hc Hdown. unfold get_jwks, fetch_json. rewrite Hc. cbn [is_None].
  destruct (String.eqb_spec AUTH0_DOMAIN "") as [He|Hne].
  - rewrite (domain_unset_falsy He). cbn [negb].
    eexists. repeat split; cbn; try lia; eauto.
  - rewrite (domain_set_truthy Hne). cbn [negb].
    destruct Hdown as [He|Hr]; [contradiction|].
    unfold jwks_url in Hr.
    destruct (net w _ (requests_sent w)) as [why|status [j|]]; cbn in Hr.
    + eexists. repeat split; cbn; try lia; eauto.
    + rewrite orb_false_r in Hr. rewrite Hr.
      eexists. repeat split; cbn; try lia; eauto.
    + destruct ((400 <=? status) && (status <? 600));
        eexists; repeat split; cbn; try lia; eauto.
Qed.

(** With an empty cache and a configured domain every call sends a
    request. *)
Lemma get_jwks_fetches w :
  _jwks_cache w = VNone ->
  AUTH0_DOMAIN <> "" ->
  requests_sent (snd (get_jwks w)) = S (requests_sent w).
Proof.
  intros Hc Hne. unfold get_jwks, fetch_json. rewrite Hc. cbn [is_None].
  rewrite (domain_set_truthy Hne). cbn [negb].
  destruct (net w _ (requests_sent w)) as [why|status [j|]];
    [|destruct ((400 <=? status) && (status <? 600))..]; reflexivity.
Qed.

(** A fetch that succeeds: the parsed body is returned and cached whole. *)
Lemma get_jwks_fetched w status j :
  _jwks_cache w = VNone ->
  AUTH0_DOMAIN <> "" ->
  net w jwks_url (requests_sent w) = Reply status (Some j) ->
  (400 <=? status) && (status <? 600) = false ->
  exists w', get_jwks w = (Ret j, w') /\ _jwks_cache w' = j.
Proof.
  intros Hc Hne Hr Hs. unfold get_jwks, fetch_json. rewrite Hc. cbn [is_None].
  rewrite (domain_set_truthy Hne). cbn [negb].
  unfold jwks_url in Hr. rewrite Hr, Hs.
  eexists. split; reflexivity.
Qed.

(** *** Verification after the key provider *)

Lemma verify_unavailable token w w' :
  get_jwks w = (Ret VNone, w') ->
  verify token w = (Raise (HTTPException 500 JWKS_UNAVAILABLE), w').
Proof.
  intros H. unfold verify, bindM. rewrite H. reflexivity.
Qed.

Lemma verify_available token w jwks w' :
  get_jwks w = (Ret jwks, w') ->
  is_None jwks = false ->
  verify token w = (verify_with jwks token, w').
Proof.
  intros H Hn. unfold verify, bindM. rewrite H, Hn. reflexivity.
Qed.

(** What is left of [verify_with] once the token's header has parsed. *)
Lemma verify_with_header jwks token h :
  jwt_get_unverified_header token = Decoded h ->
  verify_with jwks token =
  (keys <- get_default jwks "keys" (VList []) ;;
   keys <- iter keys ;;
   rsa_key <- rsa_key_loop keys (claim h "kid") [] ;;
   if negb (truthy (VDict rsa_key))
   then abort 401 "Unable to find appropriate key"
   else
     match jwt_decode token rsa_key ALGORITHMS API_AUDIENCE
                      ("https://" ++ AUTH0_DOMAIN ++ "/") with
     | Decoded payload => Ret payload
     | ExpiredSignatureError => abort 401 "token expired"
     | JWTError e => abort 401 ("Invalid token: " ++ e)
     | Escapes e => Raise (OtherError e)
     end).
Proof.
  intros H. unfold verify_with. rewrite H. reflexivity.
Qed.

Lemma rsa_key_loop_raise keys kid acc e :
  rsa_key_loop keys kid acc = Raise e -> e = AttributeError.
Proof.
  revert acc. induction keys as [|key keys IH]; intros acc; simpl.
  - discriminate.
  - destruct key as [| | | | |d]; simpl; try (intros [= <-]; reflexivity).
    destruct (py_eq _ kid); apply IH.
Qed.

(** The ways [verify_with] ends: with the payload [jwt.decode] returned
    under [ALGORITHMS] for a key picked from the set, with one of four
    aborts, all 401, or with an exception that is not an abort. *)
Lemma verify_with_cases jwks token :
  match verify_with jwks token with
  | Ret payload =>
      exists h rsa_key,
        jwt_get_unverified_header token = Decoded h /\
        rsa_key <> [] /\
        jwt_decode token rsa_key ALGORITHMS API_AUDIENCE
                   ("https://" ++ AUTH0_DOMAIN ++ "/") = Decoded payload
  | Raise (HTTPException code d) =>
      code = 401 /\
      (d = "Invalid header." \/ d = "Unable to find appropriate key" \/
       d = "token expired" \/ exists m, d = "Invalid token: " ++ m)
  | Raise _ => True
  end.
Proof.
  unfold verify_with.
  destruct (jwt_get_unverified_header token) as [h| |m|n] eqn:Hh; simpl;
    try (split; [reflexivity|left; reflexivity]); try exact I.
  destruct jwks as [| | | | |d]; simpl; try exact I.
  destruct (iter _) as [kl|e] eqn:Hi; simpl;
    [|destruct e; try exact I;
      destruct (match lookup "keys" d with Some v => v | None => VList [] end);
      discriminate].
  destruct (rsa_key_loop kl _ []) as [rsa_key|e] eqn:Hk; simpl;
    [|rewrite (rsa_key_loop_raise _ _ _ _ Hk); exact I].
  destruct rsa_key as [|kv rsa_key]; simpl.
  - split; [reflexivity|right; left; reflexivity].
  - destruct (jwt_decode token _ _ _ _) as [p| |m|n] eqn:Hd; simpl.
    + exists h, (kv :: rsa_key). repeat split; [discriminate|assumption].
    + split; [reflexivity|do 2 right; left; reflexivity].
    + split; [reflexivity|do 3 right; exists m; reflexivity].
    + exact I.
Qed.

(** The whole of lines 54-85 as one equation: the header is extracted,
    then the key set is asked for, then the token's header is decoded, and
    only then are the key looked up and the token verified. *)
Lemma authenticate_steps auth token w :
  _get_token_auth_header auth = Ret token ->
  exists w',
    get_jwks w = (Ret (_jwks_cache w'), w') /\
    authenticate auth w =
    (if is_None (_jwks_cache w')
     then Raise (HTTPException 500 JWKS_UNAVAILABLE)
     else match jwt_get_unverified_header token with
          | Decoded _ => verify_with (_jwks_cache w') token
          | Escapes e => Raise (OtherError e)
          | _ => Raise (HTTPException 401 "Invalid header.")
          end, w').
Proof.
  intros Ht. destruct (get_jwks_returns w) as (w' & Hg & _).
  exists w'. split; [assumption|].
  rewrite (authenticate_with_token _ _ w Ht).
  unfold verify, bindM, lift. rewrite Hg.
  destruct (is_None (_jwks_cache w')); [reflexivity|].
  unfold verify_with.
  destruct (jwt_get_unverified_header token); reflexivity.
Qed.

(** An abort with 500 comes from the key provider and from nowhere else. *)
Lemma authenticate_500 auth w description :
  fst (authenticate auth w) = Raise (HTTPException 500 description) ->
  description = JWKS_UNAVAILABLE /\
  (exists token, _get_token_auth_header auth = Ret token) /\
  fst (get_jwks w) = Ret VNone.
Proof.
  intros H.
  pose proof (header_cases auth) as Hh.
  destruct (_get_token_auth_header auth) as [token|e] eqn:Ht.
  - destruct (authenticate_steps _ _ w Ht) as (w' & Hg & Ha).
    rewrite Ha in H. cbn [fst] in H. rewrite Hg. cbn [fst].
    destruct (_jwks_cache w') eqn:Hc; cbn [is_None] in H;
      try (injection H as <-; repeat split; eauto; fail);
      exfalso;
      (destruct (jwt_get_unverified_header token); try discriminate;
       match type of H with
       | verify_with ?j ?t = _ =>
           pose proof (verify_with_cases j t) as Hv; rewrite H in Hv;
           destruct Hv as [Hv _]; discriminate Hv
       end).
  - rewrite (authenticate_without_token _ _ w Ht) in H. cbn [fst] in H.
    injection H as He. subst e. destruct Hh as [Hh _]. discriminate Hh.
Qed.

(** C1. A malformed Authorization header must be answered 401 without the
    protected operation being run, also when the header is empty or only
    white space.  The code misses the last case: on a non-empty header made
    of white space ([" "], or the single character 160) [parts] is empty,
    [parts[0]] raises [IndexError], and the request ends in that exception
    instead of an abort with 401; it is no [HTTPException], so it is the
    handler for 500 that answers, with status 500 and the error value
    "internal_server_error".  The operation is not run. *)
Theorem blank_header_raises_IndexError
        {R : Type} (scopes : option (list string)) (f : M R) (w : world) :
  spec_malformed (Some " ") /\
  spec_malformed (Some (String (ascii_of_nat 160) "")) /\
  requires_auth scopes f (Some " ") w = (Raise IndexError, w) /\
  requires_auth scopes f (Some (String (ascii_of_nat 160) "")) w
  = (Raise IndexError, w) /\
  errorhandler IndexError
  = Some (VDict [("error", VStr "internal_server_error");
                 ("message", VStr INTERNAL_SERVER_ERROR_DESCRIPTION)], 500).
Proof.
  split; [exact I|split; [exact I|split; [|split; [|reflexivity]]]];
    apply requires_auth_raise, authenticate_without_token; reflexivity.
Qed.

(** X11. Every other malformed header is answered 401 and the operation is
    not run: the result is the same abort whatever the operation is. *)
Lemma malformed_header_rejected
      {R : Type} (scopes : option (list string)) (f : M R) auth w :
  spec_malformed auth ->
  (forall a, auth = Some a -> split a = [] -> a = "") ->
  exists description,
    requires_auth scopes f auth w = (Raise (HTTPException 401 description), w).
Proof.
  intros Hbad Hblank.
  destruct (malformed_header_aborts_401 auth Hbad Hblank) as (d & Hd).
  exists d. apply requires_auth_raise, authenticate_without_token, Hd.
Qed.

(** C3 (as the code has it). The order of the steps is: header extraction,
    key-set retrieval, decoding of the token's header, key lookup and
    cryptographic verification.  For a request whose Authorization header
    carries a token, the answer is 500 (key store unavailable) whenever
    the key provider returns nothing, whatever the token looks like; a
    token whose header does not parse gets 401 "Invalid header." only when
    the key set is there.  An abort with 500 occurs only for a request
    that carries a token while the key provider returns nothing. *)
Theorem verification_order auth token w :
  _get_token_auth_header auth = Ret token ->
  (exists w',
     get_jwks w = (Ret (_jwks_cache w'), w') /\
     authenticate auth w =
     (if is_None (_jwks_cache w')
      then Raise (HTTPException 500 JWKS_UNAVAILABLE)
      else match jwt_get_unverified_header token with
           | Decoded _ => verify_with (_jwks_cache w') token
           | Escapes e => Raise (OtherError e)
           | _ => Raise (HTTPException 401 "Invalid header.")
           end, w')) /\
  (forall auth0 w0 description,
     fst (authenticate auth0 w0) = Raise (HTTPException 500 description) ->
     (exists token0, _get_token_auth_header auth0 = Ret token0) /\
     fst (get_jwks w0) = Ret VNone) /\
  failure_of JWKS_UNAVAILABLE = Some KeyStoreUnavailable /\
  failure_of "Invalid header." = Some MalformedToken.
Proof.
  intros Ht. split; [exact (authenticate_steps auth token w Ht)|].
  split; [|split; reflexivity].
  intros auth0 w0 d H. exact (proj2 (authenticate_500 auth0 w0 d H)).
Qed.

(** The two [except] arms of lines 82-85.  A token that gets as far as
    [jwt.decode] (the header carries it, the key set is there, the token's header parses and
    a key of the set has its [kid]) and on which [jwt.decode] raises
    [ExpiredSignatureError] is rejected with 401 "token expired"; on any
    other [JWTError] it is rejected with 401 "Invalid token: ...".  The
    guard itself never looks at the signature or at [exp]. *)
Theorem expired_token_rejected
        {R : Type} (scopes : option (list string)) (f : M R)
        auth token w jwks w' h keys kl rsa_key :
  _get_token_auth_header auth = Ret token ->
  get_jwks w = (Ret jwks, w') ->
  is_None jwks = false ->
  jwt_get_unverified_header token = Decoded h ->
  get_default jwks "keys" (VList []) = Ret keys ->
  iter keys = Ret kl ->
  rsa_key_loop kl (claim h "kid") [] = Ret rsa_key ->
  rsa_key <> [] ->
  (jwt_decode token rsa_key ALGORITHMS API_AUDIENCE
              ("https://" ++ AUTH0_DOMAIN ++ "/") = ExpiredSignatureError ->
   requires_auth scopes f auth w
   = (Raise (HTTPException 401 "token expired"), w')) /\
  (forall m,
     jwt_decode token rsa_key ALGORITHMS API_AUDIENCE
                ("https://" ++ AUTH0_DOMAIN ++ "/") = JWTError m ->
     requires_auth scopes f auth w
     = (Raise (HTTPException 401 ("Invalid token: " ++ m)), w')) /\
  failure_of "token expired" = Some TokenExpired.
Proof.
  intros Ht Hg Hn Hh Hk Hi Hl Hne.
  assert (Hv : verify token w = (verify_with jwks token, w'))
    by (apply verify_available; assumption).
  assert (Hw : forall r,
             jwt_decode token rsa_key ALGORITHMS API_AUDIENCE
                        ("https://" ++ AUTH0_DOMAIN ++ "/") = r ->
             verify_with jwks token =
             match r with
             | Decoded payload => Ret payload
             | ExpiredSignatureError => abort 401 "token expired"
             | JWTError e => abort 401 ("Invalid token: " ++ e)
             | Escapes e => Raise (OtherError e)
             end).
  { intros r Hr. rewrite (verify_with_header _ _ _ Hh), Hk. cbn [bind].
    rewrite Hi. cbn [bind]. rewrite Hl. cbn [bind].
    destruct rsa_key; [contradiction|]. cbn [truthy negb]. rewrite Hr.
    reflexivity. }
  split; [|split; [|reflexivity]].
  - intros Hd. apply requires_auth_raise.
    rewrite (authenticate_with_token _ _ w Ht), Hv, (Hw _ Hd). reflexivity.
  - intros m Hd. apply requires_auth_raise.
    rewrite (authenticate_with_token _ _ w Ht), Hv, (Hw _ Hd). reflexivity.
Qed.

(** C2 (as the code has it). A token that gets as far as [jwt.decode]
    (the header carries it, the key set is there, the token's header
    parses and a key of the set has its [kid]), that names RS256 and whose
    [exp] is in the past, is rejected as expired, 401 "token expired",
    when its signature validates under the key and its [iat] and [nbf]
    pass; when its signature does not validate it is rejected as invalid,
    401 "Invalid token: Signature verification failed.", expired or not:
    the guard leaves the order of the two checks to [jwt.decode], which
    looks at the signature first. *)
Theorem expired_token_reported_after_signature
        {R : Type} (scopes : option (list string)) (f : M R)
        (now : Z) (usable : dict -> Prop)
        auth token w jwks w' h keys kl rsa_key claims exp :
  decode_checks_in_order J now usable ->
  _get_token_auth_header auth = Ret token ->
  get_jwks w = (Ret jwks, w') ->
  is_None jwks = false ->
  jwt_get_unverified_header token = Decoded h ->
  get_default jwks "keys" (VList []) = Ret keys ->
  iter keys = Ret kl ->
  rsa_key_loop kl (claim h "kid") [] = Ret rsa_key ->
  rsa_key <> [] ->
  usable rsa_key ->
  lookup "alg" h = Some (VStr "RS256") ->
  unverified_claims token = Some claims ->
  lookup "exp" claims = Some (VInt exp) ->
  exp < now ->
  (signature_valid "RS256" rsa_key token = true ->
   claims_pass_before_exp now claims ->
   requires_auth scopes f auth w
   = (Raise (HTTPException 401 "token expired"), w')) /\
  (signature_valid "RS256" rsa_key token = false ->
   requires_auth scopes f auth w
   = (Raise (HTTPException 401
               "Invalid token: Signature verification failed."), w')) /\
  failure_of "token expired" = Some TokenExpired /\
  failure_of "Invalid token: Signature verification failed."
  = Some InvalidToken.
Proof.
  intros Hlib Ht Hg Hn Hh Hk Hi Hl Hne Hu Halg Hc He Hlt.
  destruct (Hlib token rsa_key ALGORITHMS API_AUDIENCE
                 ("https://" ++ AUTH0_DOMAIN ++ "/") h "RS256" claims exp
                 Hu Hh Halg (or_introl eq_refl) Hc He Hlt) as [Hbad Hgood].
  destruct (expired_token_rejected scopes f auth token w jwks w' h keys kl
              rsa_key Ht Hg Hn Hh Hk Hi Hl Hne) as (Hexp & Herr & _).
  split; [|split; [|split; reflexivity]].
  - intros Hs Hp. exact (Hexp (Hgood Hs Hp)).
  - intros Hs. exact (Herr _ (Hbad Hs)).
Qed.

(** *** Serving requests while the key set cannot be fetched *)

Lemma fetch_down_net w w' n :
  net w' = net w -> fetch_down w n -> fetch_down w' n.
Proof.
  unfold fetch_down. intros ->. exact (fun H => H).
Qed.

Lemma serve_down {R : Type} (scopes : option (list string)) (f : M R) requests :
  forall w,
    _jwks_cache w = VNone ->
    (forall n, (requests_sent w <= n < requests_sent w + length requests)%nat ->
               fetch_down w n) ->
    exists w',
      serve scopes f requests w = (map answer_while_down requests, w') /\
      _jwks_cache w' = VNone /\
      net w' = net w /\
      (requests_sent w <= requests_sent w' <= requests_sent w + length requests)%nat.
Proof.
  induction requests as [|auth rest IH]; intros w Hc Hdown.
  - exists w. cbn. repeat split; try assumption; lia.
  - cbn [serve map length] in *.
    assert (Hstep : exists w1,
               requires_auth scopes f auth (new_request w)
               = (answer_while_down auth, w1) /\
               _jwks_cache w1 = VNone /\ net w1 = net w /\
               (requests_sent w <= requests_sent w1 <= S (requests_sent w))%nat).
    { unfold answer_while_down.
      destruct (_get_token_auth_header auth) as [token|e] eqn:Ht.
      - destruct (get_jwks_down (new_request w)) as (w1 & Hg & Hc1 & Hn & Hs & _).
        + exact Hc.
        + apply (fetch_down_net w); [reflexivity|]. apply Hdown. cbn. lia.
        + exists w1. split; [|repeat split; try assumption; cbn in Hs; lia].
          apply requires_auth_raise.
          rewrite (authenticate_with_token _ _ _ Ht).
          apply verify_unavailable, Hg.
      - exists (new_request w). split; [|repeat split; try assumption; cbn; lia].
        apply requires_auth_raise, authenticate_without_token, Ht. }
    destruct Hstep as (w1 & Hr & Hc1 & Hn1 & Hs1).
    destruct (IH w1 Hc1) as (w2 & Hserve & Hc2 & Hn2 & Hs2).
    + intros n Hn. apply (fetch_down_net w); [assumption|]. apply Hdown. lia.
    + exists w2. rewrite Hr, Hserve.
      repeat split; try assumption; try congruence; lia.
Qed.

(** C7. When the fetch of the key set cannot succeed (no issuer domain
    configured, no reply, an error status, a body that is not JSON),
    [get_jwks] writes to the log and returns [None] instead of raising; the
    cache stays empty, so that the next call goes to the network again; a
    verification run on an empty cache is answered 500 "JWKS unavailable",
    and so is every request carrying a token for as long as the fetches
    fail; the first fetch that succeeds fills the cache and ends this:
    when its body is a key set (anything but [null]), the verification
    that asked for it goes on with that set. *)
Theorem key_fetch_failure_degrades
        {R : Type} (scopes : option (list string)) (f : M R) (w : world) :
  _jwks_cache w = VNone ->
  (fetch_down w (requests_sent w) ->
   exists w',
     get_jwks w = (Ret VNone, w') /\
     _jwks_cache w' = VNone /\
     (exists r, app_log w' = (app_log w ++ [r])%list) /\
     (AUTH0_DOMAIN <> "" ->
      requests_sent (snd (get_jwks w')) = S (requests_sent w')) /\
     (forall token,
        verify token w = (Raise (HTTPException 500 JWKS_UNAVAILABLE), w')) /\
     failure_of JWKS_UNAVAILABLE = Some KeyStoreUnavailable) /\
  (forall requests,
     (forall n,
        (requests_sent w <= n < requests_sent w + length requests)%nat ->
        fetch_down w n) ->
     exists w',
       serve scopes f requests w = (map answer_while_down requests, w') /\
       _jwks_cache w' = VNone) /\
  (forall status j,
     AUTH0_DOMAIN <> "" ->
     net w jwks_url (requests_sent w) = Reply status (Some j) ->
     (400 <=? status) && (status <? 600) = false ->
     exists w',
       get_jwks w = (Ret j, w') /\ _jwks_cache w' = j /\
       (is_None j = false ->
        forall token, verify token w = (verify_with j token, w'))).
Proof.
  intros Hc. split; [|split].
  - intros Hdown.
    destruct (get_jwks_down w Hc Hdown) as (w' & Hg & Hc' & _ & _ & Hlog & _).
    exists w'. repeat split; try assumption.
    + intros Hne. apply get_jwks_fetches; assumption.
    + intros token. apply verify_unavailable, Hg.
  - intros requests Hdown.
    destruct (serve_down scopes f requests w Hc Hdown) as (w' & Hs & Hc' & _).
    exists w'. split; assumption.
  - intros status j Hne Hr Hs.
    destruct (get_jwks_fetched w status j Hc Hne Hr Hs) as (w' & Hg & Hc').
    exists w'. split; [exact Hg|split; [exact Hc'|]].
    intros Hj token. exact (verify_available token w j w' Hg Hj).
Qed.

(** C9 (as the code has it). The cache changes only by a fetch on an empty
    cache, and then it holds nothing or the whole body of one reply without
    an error status, as parsed: never a part of it.  The body is not looked
    into: whether it carries [keys] is not checked, and a cached object
    without [keys] counts as a set without keys at verification, where
    every token whose header parses is refused for want of a key. *)
Theorem cache_all_or_nothing (w : world) :
  (is_None (_jwks_cache w) = false -> get_jwks w = (Ret (_jwks_cache w), w)) /\
  (_jwks_cache w = VNone ->
   _jwks_cache (snd (get_jwks w)) = VNone \/
   exists status j,
     net w jwks_url (requests_sent w) = Reply status (Some j) /\
     (400 <=? status) && (status <? 600) = false /\
     _jwks_cache (snd (get_jwks w)) = j) /\
  (forall d token h,
     lookup "keys" d = None ->
     jwt_get_unverified_header token = Decoded h ->
     verify_with (VDict d) token
     = Raise (HTTPException 401 "Unable to find appropriate key")).
Proof.
  split; [exact (get_jwks_cached w)|split].
  - intros Hc. unfold get_jwks, fetch_json, jwks_url. rewrite Hc. cbn [is_None].
    destruct (negb (truthy (VStr AUTH0_DOMAIN))); [left; exact Hc|].
    destruct (net w _ (requests_sent w)) as [why|status [j|]] eqn:Hr.
    + left. reflexivity.
    + destruct ((400 <=? status) && (status <? 600)) eqn:Hs.
      * left. reflexivity.
      * right. exists status, j. repeat split. assumption.
    + destruct ((400 <=? status) && (status <? 600)); left; reflexivity.
  - intros d token h Hk Hh.
    rewrite (verify_with_header _ _ _ Hh). cbn. rewrite Hk. reflexivity.
Qed.

End Guard.

(** ** The authorization policy *)

Lemma scope_loop_raise required token_scopes perms e :
  scope_loop required token_scopes perms = Raise e ->
  e = HTTPException 403 "insufficient_scope" \/ e = TypeError.
Proof.
  induction required as [|scope rest IH]; simpl; [discriminate|].
  destruct (existsb (String.eqb scope) token_scopes); [exact IH|].
  destruct (py_in (VStr scope) perms) as [[|]|e'] eqn:Hin; simpl.
  - exact IH.
  - intros [= <-]. left. reflexivity.
  - intros [= <-]. right.
    destruct perms; simpl in Hin; try discriminate; injection Hin as <-;
      reflexivity.
Qed.

Lemma scope_check_raise scopes payload e :
  scope_check scopes payload = Raise e ->
  e = HTTPException 403 "insufficient_scope" \/ e = TypeError.
Proof.
  destruct scopes as [[|scope rest]|]; try discriminate.
  unfold scope_check. apply scope_loop_raise.
Qed.

(** On a list of permissions the loop passes exactly when every required
    scope is a token of the scope claim or an element of the list, and
    fails with 403 otherwise. *)
Lemma scope_loop_list required token_scopes l :
  scope_loop required token_scopes (VList l) =
  if forallb (fun scope => existsb (String.eqb scope) token_scopes
                           || existsb (py_eq (VStr scope)) l) required
  then Ret tt
  else abort 403 "insufficient_scope".
Proof.
  induction required as [|scope rest IH]; cbn [scope_loop forallb];
    [reflexivity|].
  destruct (existsb (String.eqb scope) token_scopes); cbn [orb andb];
    [exact IH|].
  cbn [py_in bind].
  destruct (existsb (py_eq (VStr scope)) l); cbn [andb];
    [exact IH|reflexivity].
Qed.

(** X12. The scope check on a payload whose "permissions" claim is absent
    or a list: it passes exactly when the specification says so, and fails
    with 403 "insufficient_scope"; without required scopes it always
    passes. *)
Lemma scope_check_list_permissions required payload :
  (lookup "permissions" payload = None \/
   exists l, lookup "permissions" payload = Some (VList l)) ->
  scope_check (Some required) payload =
  if spec_scopes_granted required payload
  then Ret tt
  else abort 403 "insufficient_scope".
Proof.
  intros Hp. destruct required as [|scope rest]; [reflexivity|].
  unfold scope_check, spec_scopes_granted.
  destruct Hp as [Hp|[l Hp]]; rewrite Hp; rewrite scope_loop_list;
    destruct (lookup "scope" payload) as [[| | |sc| |]|];
    cbn [existsb orb]; try reflexivity;
    repeat match goal with
           | |- context [(?b || false)%bool] => rewrite (orb_false_r b)
           end; reflexivity.
Qed.

Lemma scope_check_not_required payload :
  scope_check None payload = Ret tt /\ scope_check (Some []) payload = Ret tt.
Proof. split; reflexivity. Qed.

Lemma any_admin_raise roles e :
  any_admin roles = Raise e -> e = AttributeError.
Proof.
  induction roles as [|r roles IH]; simpl; [discriminate|].
  destruct r; try (intros [= <-]; reflexivity).
  destruct (String.eqb (lower s) "admin"); [discriminate|exact IH].
Qed.

Lemma any_admin_strings roles :
  forallb is_str roles = true ->
  any_admin roles = Ret (existsb is_admin_str roles).
Proof.
  induction roles as [|r roles IH]; simpl; [reflexivity|].
  destruct r; simpl; try discriminate.
  intros H. destruct (String.eqb (lower s) "admin"); [reflexivity|].
  apply IH, H.
Qed.

Lemma namespaced_roles_loop_raise items e :
  namespaced_roles_loop items = Raise e -> e = AttributeError.
Proof.
  induction items as [|[k v] items IH]; simpl; [discriminate|].
  destruct (endswith k "/roles"); [|exact IH].
  destruct v; try exact IH.
  destruct (any_admin l) as [[|]|e'] eqn:Ha; simpl.
  - discriminate.
  - exact IH.
  - intros [= <-]. exact (any_admin_raise _ _ Ha).
Qed.

Lemma namespaced_roles_loop_strings items :
  forallb (fun kv => negb (endswith (fst kv) "/roles")
                     || strings_only (snd kv)) items = true ->
  namespaced_roles_loop items = Ret (admin_by_namespaced_roles items).
Proof.
  induction items as [|[k v] items IH]; simpl; [reflexivity|].
  intros H. apply andb_prop in H. destruct H as [Hkv H].
  destruct (endswith k "/roles"); simpl in *; [|exact (IH H)].
  destruct v; simpl in *; try exact (IH H).
  rewrite (any_admin_strings _ Hkv). simpl.
  destruct (existsb is_admin_str l); simpl; [reflexivity|exact (IH H)].
Qed.

(** [is_admin_from_payload] never aborts: when it raises, it is an
    [AttributeError]. *)
Lemma is_admin_raise payload e :
  is_admin_from_payload payload = Raise e -> e = AttributeError.
Proof.
  unfold is_admin_from_payload.
  destruct (negb (truthy payload)); [discriminate|].
  destruct payload as [| | | | |d]; simpl; try (intros [= <-]; reflexivity).
  destruct (match (if truthy _ then _ else VList []) with
            | VList l => _ | _ => false end); [discriminate|].
  destruct (if truthy _ then Ret _ else Ret _) as [roles|e'] eqn:Hr; simpl;
    [|destruct (truthy _); discriminate].
  destruct (match (match roles with VStr _ => VList [roles] | _ => roles end)
            with VList l => any_admin l | _ => Ret false end)
    as [[|]|e'] eqn:Ha; simpl.
  - discriminate.
  - apply namespaced_roles_loop_raise.
  - intros [= <-].
    destruct roles; simpl in Ha; try discriminate;
      [destruct (String.eqb (lower s) "admin"); discriminate
      |exact (any_admin_raise _ _ Ha)].
Qed.

(** On a payload whose role lists hold strings the check returns, and it
    returns the disjunction of the three markers, the second one read off
    the "roles" claim when that is truthy and off "role" otherwise. *)
Lemma is_admin_on_strings d :
  role_lists_hold_strings d = true ->
  is_admin_from_payload (VDict d) = Ret (admin_markers d).
Proof.
  unfold role_lists_hold_strings, admin_markers. intros H.
  apply andb_prop in H. destruct H as [Hsel Hns].
  destruct d as [|kv d']; [reflexivity|].
  remember (kv :: d') as d eqn:Hd.
  unfold is_admin_from_payload.
  replace (truthy (VDict d)) with true by (subst d; reflexivity).
  cbn [negb]. unfold get, get_default. cbn [bind].
  assert (Hperm :
            match (if truthy (match lookup "permissions" d with
                              | Some v => v | None => VList [] end)
                   then match lookup "permissions" d with
                        | Some v => v | None => VList [] end
                   else VList []) with
            | VList l => existsb (py_eq (VStr "delete:trip")) l
                         || existsb (py_eq (VStr "delete:investor")) l
            | _ => false
            end = admin_by_permissions d).
  { unfold admin_by_permissions, claim.
    destruct (lookup "permissions" d) as [[|b|z|s|[|x l]|[|x l]]|];
      cbn; try reflexivity.
    - destruct b; reflexivity.
    - destruct (z =? 0); reflexivity.
    - destruct (String.eqb s ""); reflexivity. }
  rewrite Hperm.
  destruct (admin_by_permissions d); [reflexivity|]. cbn [orb].
  fold (claim d "roles"). fold (claim d "role").
  replace (if truthy (claim d "roles") then Ret (claim d "roles")
           else Ret (claim d "role"))
    with (Ret (A := value) (selected_roles d))
    by (unfold selected_roles; destruct (truthy (claim d "roles")); reflexivity).
  cbn [bind].
  assert (Hroles :
            match (match selected_roles d with
                   | VStr _ => VList [selected_roles d]
                   | _ => selected_roles d end) with
            | VList l => any_admin l
            | _ => Ret false
            end = Ret (names_admin (selected_roles d))).
  { destruct (selected_roles d) as [| | |s|l|]; simpl in *; try reflexivity.
    - destruct (String.eqb (lower s) "admin"); reflexivity.
    - apply any_admin_strings, Hsel. }
  rewrite Hroles. cbn [bind].
  destruct (names_admin (selected_roles d)); [reflexivity|]. cbn [orb].
  apply namespaced_roles_loop_strings, Hns.
Qed.


(** ** Failure responses *)

Lemma prefix_empty (s : string) : String.prefix "" s = true.
Proof. destruct s; reflexivity. Qed.

(** Every call of [abort] in the module is answered as the specification
    describes the failure it stands for. *)
Lemma abort_site_response code description :
  abort_site code description -> spec_failure_response code description.
Proof.
  intros H. unfold spec_failure_response.
  destruct H;
    (eexists; split;
       [unfold failure_of; cbn; rewrite ?prefix_empty; reflexivity|];
     split; [reflexivity|]; split; [reflexivity|];
     repeat split; intros; try reflexivity; intuition congruence).
Qed.

Lemma header_abort_site auth code description :
  _get_token_auth_header auth = Raise (HTTPException code description) ->
  abort_site code description.
Proof.
  destruct auth as [a|]; simpl; [|intros [= <- <-]; constructor].
  destruct (String.eqb a ""); simpl; [intros [= <- <-]; constructor|].
  destruct (split a) as [|p0 [|p1 [|p2 rest]]]; simpl; try discriminate;
    destruct (String.eqb (lower p0) "bearer"); simpl;
    try discriminate; intros [= <- <-]; constructor.
Qed.

Section Responses.

Context {C : Config} {J : Jose}.

Lemma authenticate_abort_site auth w code description w' :
  authenticate auth w = (Raise (HTTPException code description), w') ->
  abort_site code description.
Proof.
  intros H.
  destruct (_get_token_auth_header auth) as [token|e] eqn:Ht.
  - destruct (authenticate_steps _ _ w Ht) as (w1 & _ & Ha).
    rewrite Ha in H. injection H as H _.
    destruct (is_None (_jwks_cache w1)).
    + injection H as <- <-. constructor.
    + assert (Hv : verify_with (_jwks_cache w1) token
                   = Raise (HTTPException code description) ->
                   abort_site code description).
      { intros Hv. pose proof (verify_with_cases (_jwks_cache w1) token) as Hc.
        rewrite Hv in Hc. destruct Hc as [-> [->|[->|[->|[m ->]]]]];
          constructor. }
      destruct (jwt_get_unverified_header token);
        try (apply Hv, H); try discriminate;
        injection H as <- <-; constructor.
  - rewrite (authenticate_without_token _ _ w Ht) in H.
    injection H as -> _. exact (header_abort_site _ _ _ Ht).
Qed.

(** An abort that leaves [requires_auth] is one of the module's, provided
    the guarded operation only aborts that way. *)
Lemma requires_auth_abort_site
      {R : Type} (scopes : option (list string)) (g : M R)
      auth w code description w' :
  (forall w0 c d w1, g w0 = (Raise (HTTPException c d), w1) -> abort_site c d) ->
  requires_auth scopes g auth w = (Raise (HTTPException code description), w') ->
  abort_site code description.
Proof.
  intros Hg H.
  destruct (authenticate auth w) as [[payload|e] w1] eqn:Ha.
  - rewrite (requires_auth_ret _ _ _ _ _ _ Ha) in H.
    destruct (scope_check scopes payload) as [[]|e] eqn:Hs.
    + exact (Hg _ _ _ _ H).
    + injection H as -> _.
      destruct (scope_check_raise _ _ _ Hs) as [[= -> ->]|];
        [constructor|discriminate].
  - rewrite (requires_auth_raise _ _ _ _ _ _ Ha) in H.
    injection H as -> _. exact (authenticate_abort_site _ _ _ _ _ Ha).
Qed.

(** The aborts of a guard.  Every call of [abort] on the way to an
    operation that does not fail itself is answered with the JSON body
    [{"error": kind, "message": description}]; the status is 500 exactly
    for the unavailable key store, 403 exactly for insufficient scope and
    for a missing admin role, 401 for every other failure of the taxonomy,
    and a 403 carries the error value "forbidden". *)
Theorem guard_failures_follow_taxonomy
        {R : Type} (scopes : option (list string)) (f : M R)
        auth w code description w' :
  (forall w0 e w1, f w0 <> (Raise e, w1)) ->
  requires_auth scopes f auth w = (Raise (HTTPException code description), w')
  \/ requires_admin f auth w = (Raise (HTTPException code description), w') ->
  spec_failure_response code description.
Proof.
  intros Hf [H|H]; apply abort_site_response.
  - apply (requires_auth_abort_site scopes f auth w code description w');
      [|exact H].
    intros w0 c d w1 Hr. elim (Hf _ _ _ Hr).
  - unfold requires_admin in H.
    refine (requires_auth_abort_site None _ auth w code description w' _ H).
    intros w0 c d w1. unfold bindM, lift.
    destruct (is_admin_from_payload _) as [[|]|e] eqn:Hadm; cbn [negb].
    + intros Hr. elim (Hf _ _ _ Hr).
    + intros [= <- <- _]. constructor.
    + rewrite (is_admin_raise _ _ Hadm). discriminate.
Qed.

(** C6. [ALGORITHMS] is exactly ["RS256"], and it is the list every call
    of [jwt.decode] is given.  With a library that keeps its promise about
    [algorithms], a request is authenticated only if its token names RS256
    in its header and its signature validates under RS256 with the key
    picked from the set: a token that names "none" or an HMAC algorithm is
    never accepted. *)
Theorem only_allowed_algorithm_accepted auth w payload w' :
  decode_honours_algorithms J ->
  authenticate auth w = (Ret payload, w') ->
  ALGORITHMS = ["RS256"] /\
  exists token rsa_key h,
    _get_token_auth_header auth = Ret token /\
    jwt_decode token rsa_key ["RS256"] API_AUDIENCE
               ("https://" ++ AUTH0_DOMAIN ++ "/") = Decoded payload /\
    jwt_get_unverified_header token = Decoded h /\
    lookup "alg" h = Some (VStr "RS256") /\
    signature_valid "RS256" rsa_key token = true /\
    (forall alg, In alg ["none"; "HS256"; "HS384"; "HS512"] ->
                 lookup "alg" h <> Some (VStr alg)).
Proof.
  intros Hlib H. split; [reflexivity|].
  destruct (_get_token_auth_header auth) as [token|e] eqn:Ht;
    [|rewrite (authenticate_without_token _ _ w Ht) in H; discriminate].
  destruct (authenticate_steps _ _ w Ht) as (w1 & _ & Ha).
  rewrite Ha in H. injection H as H _.
  destruct (is_None (_jwks_cache w1)); [discriminate|].
  assert (Hv : verify_with (_jwks_cache w1) token = Ret payload)
    by (destruct (jwt_get_unverified_header token); try discriminate; exact H).
  pose proof (verify_with_cases (_jwks_cache w1) token) as Hc.
  rewrite Hv in Hc. destruct Hc as (h & rsa_key & Hh & _ & Hd).
  destruct (Hlib _ _ _ _ _ _ Hd) as (h' & alg & Hh' & Halg & Hin & Hsig).
  rewrite Hh in Hh'. injection Hh' as <-.
  assert (Hrs : alg = "RS256").
  { destruct Hin as [<-|[]]. reflexivity. }
  subst alg.
  exists token, rsa_key, h. repeat split; try assumption.
  intros alg Halg'. rewrite Halg. intros [= <-].
  cbn in Halg'. intuition discriminate.
Qed.

End Responses.

(** ** The policy on concrete payloads *)

(** C4. The scope check must pass only if every required scope is a token
    of the string-valued "scope" claim or an element of the list-valued
    "permissions" claim.  The code tests [scope in perms] without asking
    whether [perms] is a list, as [is_admin_from_payload] does: on a
    string-valued "permissions" claim the test is a substring test, and a
    token whose claim is "unread:trips" passes the check for "read:trips"
    and reaches the operation. *)
Theorem string_permissions_grant_by_substring :
  let payload := [("permissions", VStr "unread:trips")] in
  spec_scopes_granted ["read:trips"] payload = false /\
  scope_check (Some ["read:trips"]) payload = Ret tt /\
  Lab.claims_of "loose" = Some (Lab.claims 1800000000 payload) /\
  fst (Lab.guard (Some ["read:trips"]) (Some "Bearer loose") Lab.warm)
  = Ret 204.
Proof. repeat split. Qed.

(** C5 (as the code has it). On every payload whose role lists hold
    strings, [is_admin_from_payload] returns true exactly when (a) the
    list-valued "permissions" claim contains "delete:trip" or
    "delete:investor", or (b) the "roles" claim when it is truthy, and the
    "role" claim otherwise, is a string equal to "admin" or a list
    containing "admin", in any case, or (c) a claim under a key ending in
    "/roles" is a list containing "admin" in any case.  This is what the
    specification says except when a truthy "roles" claim without "admin"
    hides a "role" claim with it. *)
Theorem is_admin_reads_three_markers (d : dict) :
  role_lists_hold_strings d = true ->
  is_admin_from_payload (VDict d) = Ret (admin_markers d) /\
  (truthy (claim d "roles") = false \/ names_admin (claim d "role") = false ->
   admin_markers d = spec_is_admin d).
Proof.
  intros H. split; [exact (is_admin_on_strings d H)|].
  unfold admin_markers, spec_is_admin, selected_roles.
  intros [Hr|Hr].
  - rewrite Hr.
    replace (names_admin (claim d "roles")) with false; [reflexivity|].
    destruct (claim d "roles") as [| | |s|[|x l]|]; try reflexivity;
      try discriminate.
    simpl in Hr. destruct (String.eqb_spec s ""); [subst; reflexivity|discriminate].
  - rewrite Hr, orb_false_r.
    destruct (truthy (claim d "roles")) eqn:Ht; [reflexivity|].
    rewrite Hr.
    replace (names_admin (claim d "roles")) with false; [reflexivity|].
    destruct (claim d "roles") as [| | |s|[|x l]|]; try reflexivity;
      try discriminate.
    simpl in Ht. destruct (String.eqb_spec s ""); [subst; reflexivity|discriminate].
Qed.

(** C10. [is_admin_from_payload] must return a boolean on every input.  It
    does on [None] and on the empty mapping, but a role list with an
    element that is not a string makes [r.lower()] raise [AttributeError]:
    on the payload [{"roles": [1]}] the function raises, and the admin
    guard ends in that exception instead of answering 403. *)
Theorem non_string_role_raises :
  is_admin_from_payload VNone = Ret false /\
  is_admin_from_payload (VDict []) = Ret false /\
  is_admin_from_payload (VDict [("roles", VList [VInt 1])])
  = Raise AttributeError /\
  is_admin_from_payload (VDict [("https://example.com/roles", VList [VNone])])
  = Raise AttributeError /\
  Lab.claims_of "odd"
  = Some (Lab.claims 1800000000 [("roles", VList [VInt 1])]) /\
  fst (Lab.admin_guard (Some "Bearer odd") Lab.warm) = Raise AttributeError.
Proof. repeat split. Qed.

(** ** Counterexamples to the statements the code does not follow *)

(** A token whose [exp] is in the past and whose [kid] is not in the key
    set is rejected for its key, not as expired. *)
Lemma expired_token_with_unknown_key :
  exp_in_past Lab.jose Lab.now "stray" /\
  fst (Lab.guard None (Some "Bearer stray") Lab.warm)
  = Raise (HTTPException 401 "Unable to find appropriate key") /\
  failure_of "Unable to find appropriate key" = Some UnknownSigningKey.
Proof.
  split; [|split; reflexivity].
  exists (Lab.claims 1600000000 []), 1600000000.
  repeat split.
Qed.

(** C3 as stated fails: a token whose header does not parse, sent while
    the key set cannot be fetched, is answered 500 and not 401. *)
Lemma unparsable_token_answered_500 :
  jwt_get_unverified_header (Jose := Lab.jose) "junk"
  = JWTError "Error decoding token headers." /\
  _get_token_auth_header (Some "Bearer junk") = Ret "junk" /\
  fst (Lab.guard None (Some "Bearer junk") (Lab.cold Lab.offline))
  = Raise (HTTPException 500 JWKS_UNAVAILABLE).
Proof. repeat split. Qed.

(** C5 as stated fails: with "roles" holding only "editor", a "role" claim
    "admin" is not looked at. *)
Lemma roles_claim_shadows_role :
  let payload := [("roles", VList [VStr "editor"]); ("role", VStr "admin")] in
  spec_is_admin payload = true /\
  is_admin_from_payload (VDict payload) = Ret false.
Proof. split; reflexivity. Qed.

(** C9 as stated fails: a reply whose body is the empty object is cached
    as it is, without [keys]. *)
Lemma keyless_body_is_cached :
  let w := snd (get_jwks (C := Lab.config) (Lab.cold (Lab.online (VDict [])))) in
  _jwks_cache w = VDict [] /\ ~ spec_cache_populated w.
Proof.
  split; [reflexivity|].
  intros [H|H]; discriminate H.
Qed.

(** ** The theorems at work in the lab *)

Lemma lab_decode_honours_algorithms : decode_honours_algorithms Lab.jose.
Proof.
  intros token key algorithms audience issuer payload. cbn.
  unfold Lab.decode.
  destruct (Lab.header_of token) as [h| |m|n] eqn:Hh; try discriminate.
  destruct (lookup "alg" h) as [[| | |alg| |]|] eqn:Ha; try discriminate.
  destruct (existsb (String.eqb alg) algorithms) eqn:Hin; [|discriminate].
  destruct (Lab.sig_ok alg key token) eqn:Hs; [|discriminate].
  intros _. exists h, alg. repeat split; try assumption.
  apply existsb_exists in Hin. destruct Hin as (a & Hin & He).
  apply String.eqb_eq in He. subst a. exact Hin.
Qed.

Lemma expired_token_rejected_witness :
  _get_token_auth_header (Some "Bearer old") = Ret "old" /\
  exp_in_past Lab.jose Lab.now "old" /\
  Lab.guard None (Some "Bearer old") Lab.warm
  = (Raise (HTTPException 401 "token expired"), Lab.warm).
Proof.
  split; [reflexivity|split].
  - exists (Lab.claims 1600000000 []), 1600000000. repeat split.
  - refine (proj1 (expired_token_rejected (C := Lab.config) (J := Lab.jose)
                     None Lab.handler (Some "Bearer old") "old" Lab.warm
                     Lab.jwks Lab.warm (Lab.header "RS256" "k1")
                     (VList [Lab.key1]) [Lab.key1]
                     [("kty", VStr "RSA"); ("kid", VStr "k1");
                      ("use", VStr "sig"); ("n", VStr "sXch");
                      ("e", VStr "AQAB")]
                     eq_refl eq_refl eq_refl eq_refl eq_refl eq_refl eq_refl _)
                  eq_refl).
    discriminate.
Defined.

Lemma verification_order_witness :
  _get_token_auth_header (Some "Bearer junk") = Ret "junk" /\
  (exists w',
     authenticate (C := Lab.config) (J := Lab.jose) (Some "Bearer junk")
                  (Lab.cold Lab.offline)
     = (Raise (HTTPException 500 JWKS_UNAVAILABLE), w')) /\
  authenticate (C := Lab.config) (J := Lab.jose) (Some "Bearer junk") Lab.warm
  = (Raise (HTTPException 401 "Invalid header."), Lab.warm).
Proof.
  split; [reflexivity|split].
  - destruct (proj1 (verification_order (C := Lab.config) (J := Lab.jose)
                       (Some "Bearer junk") "junk" (Lab.cold Lab.offline)
                       eq_refl)) as (w' & Hg & H).
    exists w'. rewrite H.
    injection Hg as Hc _. rewrite <- Hc. reflexivity.
  - destruct (proj1 (verification_order (C := Lab.config) (J := Lab.jose)
                       (Some "Bearer junk") "junk" Lab.warm eq_refl))
      as (w' & Hg & H).
    rewrite H. injection Hg as _ <-. reflexivity.
Defined.

Lemma is_admin_reads_three_markers_witness :
  role_lists_hold_strings [("roles", VList [VStr "editor"])] = true /\
  is_admin_from_payload (VDict [("roles", VList [VStr "editor"])]) = Ret false /\
  is_admin_from_payload (VDict [("role", VStr "Admin")]) = Ret true /\
  is_admin_from_payload
    (VDict [("https://example.com/roles", VList [VStr "admin"])]) = Ret true /\
  is_admin_from_payload (VDict [("permissions", VList [VStr "delete:trip"])])
  = Ret true.
Proof.
  split; [reflexivity|].
  split; [|split; [|split]].
  - exact (proj1 (is_admin_reads_three_markers
                    [("roles", VList [VStr "editor"])] eq_refl)).
  - exact (proj1 (is_admin_reads_three_markers
                    [("role", VStr "Admin")] eq_refl)).
  - exact (proj1 (is_admin_reads_three_markers
                    [("https://example.com/roles", VList [VStr "admin"])]
                    eq_refl)).
  - exact (proj1 (is_admin_reads_three_markers
                    [("permissions", VList [VStr "delete:trip"])] eq_refl)).
Defined.

Lemma only_allowed_algorithm_accepted_witness :
  decode_honours_algorithms Lab.jose /\
  authenticate (C := Lab.config) (J := Lab.jose) (Some "Bearer reader") Lab.warm
  = (Ret (Lab.claims 1800000000 [("scope", VStr "read:trips write:trips")]),
     Lab.warm) /\
  exists token rsa_key h,
    _get_token_auth_header (Some "Bearer reader") = Ret token /\
    jwt_get_unverified_header (Jose := Lab.jose) token = Decoded h /\
    lookup "alg" h = Some (VStr "RS256") /\
    signature_valid (Jose := Lab.jose) "RS256" rsa_key token = true.
Proof.
  split; [exact lab_decode_honours_algorithms|split; [reflexivity|]].
  destruct (only_allowed_algorithm_accepted
              (C := Lab.config) (J := Lab.jose)
              (Some "Bearer reader") Lab.warm _ Lab.warm
              lab_decode_honours_algorithms eq_refl)
    as (_ & token & rsa_key & h & Ht & _ & Hh & Ha & Hs & _).
  exists token, rsa_key, h. repeat split; assumption.
Defined.

Lemma key_fetch_failure_degrades_witness :
  _jwks_cache (Lab.cold Lab.offline) = VNone /\
  (forall n, fetch_down (C := Lab.config) (Lab.cold Lab.offline) n) /\
  (exists w',
     serve (C := Lab.config) (J := Lab.jose) None Lab.handler
           [Some "Bearer reader"; None; Some "Bearer root"]
           (Lab.cold Lab.offline)
     = ([Raise (HTTPException 500 JWKS_UNAVAILABLE);
         Raise (HTTPException 401 "Authorization header is expected.");
         Raise (HTTPException 500 JWKS_UNAVAILABLE)], w') /\
     _jwks_cache w' = VNone) /\
  (let recovering :=
     fun (_ : string) (n : nat) =>
       match n with
       | O => NoReply "ConnectionError"
       | _ => Reply 200 (Some Lab.jwks)
       end in
   exists w1 w2,
     verify (C := Lab.config) (J := Lab.jose) "reader" (Lab.cold recovering)
     = (Raise (HTTPException 500 JWKS_UNAVAILABLE), w1) /\
     _jwks_cache w1 = VNone /\
     verify (C := Lab.config) (J := Lab.jose) "reader" w1
     = (Ret (Lab.claims 1800000000 [("scope", VStr "read:trips write:trips")]),
        w2) /\
     _jwks_cache w2 = Lab.jwks).
Proof.
  split; [reflexivity|split; [intros n; right; reflexivity|split]].
  - exact (proj1 (proj2 (key_fetch_failure_degrades
                           (C := Lab.config) (J := Lab.jose)
                           None Lab.handler (Lab.cold Lab.offline) eq_refl))
                 [Some "Bearer reader"; None; Some "Bearer root"]
                 (fun n _ => or_intror eq_refl)).
  - cbv zeta.
    destruct (proj1 (key_fetch_failure_degrades
                       (C := Lab.config) (J := Lab.jose) None Lab.handler
                       (Lab.cold (fun (_ : string) (n : nat) =>
                                    match n with
                                    | O => NoReply "ConnectionError"
                                    | _ => Reply 200 (Some Lab.jwks)
                                    end)) eq_refl) (or_intror eq_refl))
      as (w1 & Hg & Hc1 & _ & _ & Hv & _).
    injection Hg as Hw1.
    destruct (proj2 (proj2 (key_fetch_failure_degrades
                              (C := Lab.config) (J := Lab.jose) None Lab.handler
                              w1 Hc1)) 200 Lab.jwks)
      as (w2 & _ & Hc2 & Hv2).
    + discriminate.
    + rewrite <- Hw1. reflexivity.
    + reflexivity.
    + exists w1, w2. split; [exact (Hv "reader")|split; [exact Hc1|split]].
      * rewrite (Hv2 eq_refl "reader"). reflexivity.
      * exact Hc2.
Defined.

Lemma guard_failures_follow_taxonomy_witness :
  (forall w0 e w1, Lab.handler w0 <> (Raise e, w1)) /\
  Lab.admin_guard (Some "Bearer reader") Lab.warm
  = (Raise (HTTPException 403 "Admin role required"),
     set_current_user
       (VDict (Lab.claims 1800000000
                 [("scope", VStr "read:trips write:trips")])) Lab.warm) /\
  spec_failure_response 403 "Admin role required".
Proof.
  assert (Hf : forall w0 e w1, Lab.handler w0 <> (Raise e, w1))
    by (intros w0 e w1; discriminate).
  split; [exact Hf|split; [reflexivity|]].
  exact (guard_failures_follow_taxonomy
           (C := Lab.config) (J := Lab.jose) None Lab.handler
           (Some "Bearer reader") Lab.warm 403 "Admin role required" _
           Hf (or_intror eq_refl)).
Defined.

Lemma cache_all_or_nothing_witness :
  _jwks_cache (Lab.cold (Lab.online Lab.jwks)) = VNone /\
  _jwks_cache (snd (get_jwks (C := Lab.config) (Lab.cold (Lab.online Lab.jwks))))
  = Lab.jwks /\
  _jwks_cache (snd (get_jwks (C := Lab.config) (Lab.cold Lab.offline))) = VNone.
Proof.
  split; [reflexivity|split].
  - destruct (proj1 (proj2 (cache_all_or_nothing
                              (C := Lab.config) (J := Lab.jose)
                              (Lab.cold (Lab.online Lab.jwks)))) eq_refl)
      as [H|(status & j & Hr & _ & H)].
    + discriminate H.
    + rewrite H. injection Hr as _ <-. reflexivity.
  - reflexivity.
Defined.

(** ** More on the key lookup *)

Lemma rsa_key_loop_dict d keys kid acc :
  rsa_key_loop (VDict d :: keys) kid acc =
  rsa_key_loop keys kid (if py_eq (claim d "kid") kid then rsa_fields d else acc).
Proof.
  cbn [rsa_key_loop]. unfold get, get_default. cbn [bind].
  fold (claim d "kid").
  destruct (py_eq (claim d "kid") kid); reflexivity.
Qed.

Lemma rsa_key_loop_others keys kid acc :
  Forall (other_key kid) keys -> rsa_key_loop keys kid acc = Ret acc.
Proof.
  induction 1 as [|key keys (d & -> & Hd) _ IH]; [reflexivity|].
  rewrite rsa_key_loop_dict, Hd. exact IH.
Qed.

(** On a set whose keys are all objects the loop returns: untouched when
    no [kid] matches, with the fields of a matching key otherwise. *)
Lemma rsa_key_loop_dicts keys kid :
  forallb is_dict keys = true ->
  forall acc,
  exists r,
    rsa_key_loop keys kid acc = Ret r /\
    ((r = acc /\ Forall (other_key kid) keys) \/
     (exists d, In (VDict d) keys /\ py_eq (claim d "kid") kid = true /\
                r = rsa_fields d)).
Proof.
  induction keys as [|key keys IH]; intros Hd acc.
  - exists acc. split; [reflexivity|left; split; [reflexivity|constructor]].
  - cbn [forallb] in Hd. apply andb_prop in Hd. destruct Hd as [Hk Hd].
    destruct key as [| | | | |d]; try discriminate.
    rewrite rsa_key_loop_dict.
    destruct (py_eq (claim d "kid") kid) eqn:He.
    + destruct (IH Hd (rsa_fields d)) as (r & Hr & [[-> _]|(d' & Hin & He' & ->)]).
      * exists (rsa_fields d). split; [assumption|right].
        exists d. repeat split; [left; reflexivity|assumption].
      * exists (rsa_fields d'). split; [assumption|right].
        exists d'. repeat split; [right; assumption|assumption].
    + destruct (IH Hd acc) as (r & Hr & [[-> Hf]|(d' & Hin & He' & ->)]).
      * exists acc. split; [assumption|left]. split; [reflexivity|].
        constructor; [exists d; split; [reflexivity|assumption]|assumption].
      * exists (rsa_fields d'). split; [assumption|right].
        exists d'. repeat split; [right; assumption|assumption].
Qed.

(** X2. The key lookup has no [break]: of the keys whose [kid] equals the
    token's the last one of the set is taken, and of that key exactly the
    five fields kty, kid, use, n and e are handed to [jwt.decode]. *)
Theorem last_matching_key_wins pre d post kid acc :
  forallb is_dict pre = true ->
  py_eq (claim d "kid") kid = true ->
  Forall (other_key kid) post ->
  rsa_key_loop (pre ++ VDict d :: post) kid acc = Ret (rsa_fields d).
Proof.
  intros Hpre Hd Hpost. revert acc.
  induction pre as [|key pre IH]; intros acc.
  - cbn [app]. rewrite rsa_key_loop_dict, Hd. apply rsa_key_loop_others, Hpost.
  - cbn [forallb] in Hpre. apply andb_prop in Hpre. destruct Hpre as [Hk Hpre].
    destruct key as [| | | | |d0]; try discriminate.
    cbn [app]. rewrite rsa_key_loop_dict. apply IH, Hpre.
Qed.

Lemma last_matching_key_wins_witness :
  rsa_key_loop
    [VDict [("kid", VStr "k1"); ("n", VStr "old")];
     VDict [("kid", VStr "k1"); ("n", VStr "new"); ("alg", VStr "RS256")];
     VDict [("kid", VStr "k2"); ("n", VStr "other")]]
    (VStr "k1") []
  = Ret [("kty", VNone); ("kid", VStr "k1"); ("use", VNone);
         ("n", VStr "new"); ("e", VNone)].
Proof.
  refine (last_matching_key_wins
            [VDict [("kid", VStr "k1"); ("n", VStr "old")]]
            [("kid", VStr "k1"); ("n", VStr "new"); ("alg", VStr "RS256")]
            [VDict [("kid", VStr "k2"); ("n", VStr "other")]]
            (VStr "k1") [] eq_refl eq_refl _).
  constructor; [|constructor].
  eexists. split; reflexivity.
Defined.

Section MoreGuard.

Context {C : Config} {J : Jose}.

(** X1. A token whose [kid] no key of the cached set carries is rejected
    with 401 "Unable to find appropriate key", whatever [jwt.decode] would
    say of it: the library is not asked, and the world is left as it
    was. *)
Theorem unknown_signing_key_rejected
        {R : Type} (scopes : option (list string)) (f : M R)
        auth token w d keys h :
  _get_token_auth_header auth = Ret token ->
  _jwks_cache w = VDict d ->
  lookup "keys" d = Some (VList keys) ->
  jwt_get_unverified_header token = Decoded h ->
  Forall (other_key (claim h "kid")) keys ->
  requires_auth scopes f auth w
  = (Raise (HTTPException 401 "Unable to find appropriate key"), w) /\
  failure_of "Unable to find appropriate key" = Some UnknownSigningKey.
Proof.
  intros Ht Hc Hk Hh Hkeys. split; [|reflexivity].
  apply requires_auth_raise.
  rewrite (authenticate_with_token _ _ w Ht).
  rewrite (verify_available token w (VDict d) w);
    [|rewrite <- Hc; apply get_jwks_cached; rewrite Hc; reflexivity|reflexivity].
  rewrite (verify_with_header _ _ _ Hh).
  cbn [get_default bind]. rewrite Hk. cbn [iter bind].
  rewrite (rsa_key_loop_others _ _ _ Hkeys). reflexivity.
Qed.

(** X3. A token whose header has no [kid] is not refused for that: its
    missing [kid] reads as [None], which equals the missing [kid] of a key
    of the set, so a set (of objects) with a key without [kid] gives such
    a token a key, and verification goes on to [jwt.decode] with it. *)
Theorem token_without_kid_matches_key_without_kid token h d keys key :
  jwt_get_unverified_header token = Decoded h ->
  lookup "kid" h = None ->
  lookup "keys" d = Some (VList keys) ->
  forallb is_dict keys = true ->
  In (VDict key) keys ->
  lookup "kid" key = None ->
  exists rsa_key,
    lookup "kid" rsa_key = Some VNone /\
    verify_with (VDict d) token =
    match jwt_decode token rsa_key ALGORITHMS API_AUDIENCE
                     ("https://" ++ AUTH0_DOMAIN ++ "/") with
    | Decoded payload => Ret payload
    | ExpiredSignatureError => abort 401 "token expired"
    | JWTError e => abort 401 ("Invalid token: " ++ e)
    | Escapes e => Raise (OtherError e)
    end.
Proof.
  intros Hh Hkid Hk Hd Hin Hkey.
  assert (Hc : claim h "kid" = VNone) by (unfold claim; rewrite Hkid; reflexivity).
  destruct (rsa_key_loop_dicts keys (claim h "kid") Hd [])
    as (r & Hr & [[_ Hf]|(d' & Hin' & He & ->)]).
  - exfalso. rewrite Forall_forall in Hf.
    destruct (Hf _ Hin) as (d0 & [= <-] & Hne).
    unfold claim in Hne at 1. rewrite Hkey, Hc in Hne. discriminate.
  - exists (rsa_fields d'). split.
    + rewrite Hc in He. cbn [rsa_fields lookup String.eqb Ascii.eqb Bool.eqb].
      cbn. destruct (claim d' "kid"); try discriminate. reflexivity.
    + rewrite (verify_with_header _ _ _ Hh).
      cbn [get_default bind]. rewrite Hk. cbn [iter bind]. rewrite Hr.
      reflexivity.
Qed.

End MoreGuard.

Lemma unknown_signing_key_rejected_witness :
  _get_token_auth_header (Some "Bearer stray") = Ret "stray" /\
  Lab.guard None (Some "Bearer stray") Lab.warm
  = (Raise (HTTPException 401 "Unable to find appropriate key"), Lab.warm).
Proof.
  split; [reflexivity|].
  refine (proj1 (unknown_signing_key_rejected
                   (C := Lab.config) (J := Lab.jose) None Lab.handler
                   (Some "Bearer stray") "stray" Lab.warm
                   [("keys", VList [Lab.key1])] [Lab.key1]
                   (Lab.header "RS256" "k9")
                   eq_refl eq_refl eq_refl eq_refl _)).
  constructor; [|constructor].
  eexists. split; reflexivity.
Defined.

Lemma token_without_kid_matches_key_without_kid_witness :
  exists rsa_key,
    lookup "kid" rsa_key = Some VNone /\
    verify_with (C := Lab.config)
      (J := {| jwt_get_unverified_header := fun _ => Decoded [("alg", VStr "RS256")];
               jwt_decode := fun _ _ _ _ _ => Decoded [];
               signature_valid := fun _ _ _ => true;
               unverified_claims := fun _ => None |})
      (VDict [("keys", VList [VDict [("kty", VStr "RSA")]])]) "anonymous"
    = Ret [].
Proof.
  destruct (token_without_kid_matches_key_without_kid
              (C := Lab.config)
              (J := {| jwt_get_unverified_header :=
                         fun _ => Decoded [("alg", VStr "RS256")];
                       jwt_decode := fun _ _ _ _ _ => Decoded [];
                       signature_valid := fun _ _ _ => true;
                       unverified_claims := fun _ => None |})
              "anonymous" [("alg", VStr "RS256")]
              [("keys", VList [VDict [("kty", VStr "RSA")]])]
              [VDict [("kty", VStr "RSA")]] [("kty", VStr "RSA")]
              eq_refl eq_refl eq_refl eq_refl (or_introl eq_refl) eq_refl)
    as (rsa_key & Hk & Hv).
  exists rsa_key. split; [exact Hk|exact Hv].
Defined.

(** ** More on the key provider and the guards *)

Section KeyCache.

Context {C : Config} {J : Jose}.

Lemma get_jwks_footprint w :
  net (snd (get_jwks w)) = net w /\
  current_user (snd (get_jwks w)) = current_user w /\
  (requests_sent w <= requests_sent (snd (get_jwks w)) <= S (requests_sent w))%nat.
Proof.
  unfold get_jwks, fetch_json.
  destruct (is_None (_jwks_cache w)); [|cbn; repeat split; lia].
  destruct (negb (truthy (VStr AUTH0_DOMAIN))); [cbn; repeat split; lia|].
  destruct (net w _ (requests_sent w)) as [why|status [j|]];
    [|destruct ((400 <=? status) && (status <? 600))..];
    cbn; repeat split; lia.
Qed.

Lemma verify_world token w : snd (verify token w) = snd (get_jwks w).
Proof.
  unfold verify, bindM, lift.
  destruct (get_jwks w) as [[j|e] w1]; cbn; [|reflexivity].
  destruct (is_None j); reflexivity.
Qed.


(** X5. Authenticating one request sends at most one request to the
    issuer, and none at all when the Authorization header is rejected: a
    caller without a bearer token cannot make the service fetch. *)
Theorem authenticate_sends_at_most_one_request auth w :
  net (snd (authenticate auth w)) = net w /\
  current_user (snd (authenticate auth w)) = current_user w /\
  (requests_sent w <= requests_sent (snd (authenticate auth w))
   <= S (requests_sent w))%nat /\
  (forall e, _get_token_auth_header auth = Raise e ->
             authenticate auth w = (Raise e, w)).
Proof.
  split; [|split; [|split]].
  4: { intros e He. exact (authenticate_without_token auth e w He). }
  all: destruct (_get_token_auth_header auth) as [token|e] eqn:Ht;
    [rewrite (authenticate_with_token _ _ w Ht), verify_world;
     apply get_jwks_footprint
    |rewrite (authenticate_without_token _ _ w Ht); cbn; try reflexivity; lia].
Qed.

(** X6. A reply whose body is the JSON value [null] parses to [None]: the
    fetch went through, yet the cache stays empty, nothing is written to
    the log, and the verification that asked for the key set is answered
    500 as if the fetch had failed. *)
Theorem null_body_leaves_cache_empty w status :
  _jwks_cache w = VNone ->
  AUTH0_DOMAIN <> "" ->
  net w jwks_url (requests_sent w) = Reply status (Some VNone) ->
  (400 <=? status) && (status <? 600) = false ->
  exists w',
    get_jwks w = (Ret VNone, w') /\
    _jwks_cache w' = VNone /\
    app_log w' = app_log w /\
    requests_sent w' = S (requests_sent w) /\
    forall token,
      verify token w = (Raise (HTTPException 500 JWKS_UNAVAILABLE), w').
Proof.
  intros Hc Hne Hr Hs.
  assert (Hg : get_jwks w
               = (Ret VNone,
                  set_cache VNone
                    (mkWorld (_jwks_cache w) (net w) (S (requests_sent w))
                             (app_log w) (current_user w)))).
  { unfold get_jwks, fetch_json. rewrite Hc. cbn [is_None].
    rewrite (domain_set_truthy Hne). cbn [negb].
    unfold jwks_url in Hr. rewrite Hr, Hs. reflexivity. }
  eexists. split; [exact Hg|]. repeat split.
  intros token. apply verify_unavailable, Hg.
Qed.

Lemma rsa_key_loop_not_dict pre x post kid acc :
  forallb is_dict pre = true ->
  is_dict x = false ->
  rsa_key_loop (pre ++ x :: post) kid acc = Raise AttributeError.
Proof.
  intros Hpre Hx. revert acc.
  induction pre as [|key pre IH]; intros acc.
  - destruct x; try discriminate; reflexivity.
  - cbn [forallb] in Hpre. apply andb_prop in Hpre. destruct Hpre as [Hk Hpre].
    destruct key as [| | | | |d0]; try discriminate.
    cbn [app]. rewrite rsa_key_loop_dict. apply IH, Hpre.
Qed.

(** X7. The body of the reply is cached without a look at its shape, and
    verification pays for it: with a cached value that is not an object,
    every token whose header parses ends in [AttributeError]; with [keys]
    that cannot be walked, in [TypeError]; with a key that is not an
    object, in [AttributeError].  None of these is an abort, the cache is
    left as it is, and so the next request ends the same way. *)
Theorem malformed_key_set_raises token h w :
  jwt_get_unverified_header token = Decoded h ->
  is_None (_jwks_cache w) = false ->
  (is_dict (_jwks_cache w) = false ->
   verify token w = (Raise AttributeError, w)) /\
  (forall d v,
     _jwks_cache w = VDict d ->
     lookup "keys" d = Some v ->
     not_iterable v = true ->
     verify token w = (Raise TypeError, w)) /\
  (forall d pre x post,
     _jwks_cache w = VDict d ->
     lookup "keys" d = Some (VList (pre ++ x :: post)) ->
     forallb is_dict pre = true ->
     is_dict x = false ->
     verify token w = (Raise AttributeError, w)).
Proof.
  intros Hh Hn.
  assert (Hv : verify token w = (verify_with (_jwks_cache w) token, w))
    by (apply verify_available; [apply get_jwks_cached|]; exact Hn).
  rewrite Hv, (verify_with_header _ _ _ Hh).
  split; [|split].
  - intros Hd. destruct (_jwks_cache w); try discriminate; reflexivity.
  - intros d v -> Hk Hi. cbn [get_default bind]. rewrite Hk.
    destruct v; try discriminate; reflexivity.
  - intros d pre x post -> Hk Hpre Hx. cbn [get_default bind]. rewrite Hk.
    cbn [iter bind]. rewrite (rsa_key_loop_not_dict _ _ _ _ _ Hpre Hx).
    reflexivity.
Qed.

(** X8. The admin guard is the authenticated guard without scopes around
    the admin check, the payload going from one to the other through
    [request.current_user]: a failed authentication is passed on as it is;
    otherwise the check is made on the very payload [jwt.decode] returned,
    and the operation runs exactly when the check returns true, with that
    payload as the principal; false is answered 403 "Admin role
    required". *)
Theorem admin_guard_outcome {R : Type} (f : M R) auth w :
  requires_admin f auth w =
  match authenticate auth w with
  | (Raise e, w') => (Raise e, w')
  | (Ret payload, w') =>
      let w'' := set_current_user (VDict payload) w' in
      match is_admin_from_payload (VDict payload) with
      | Ret true => f w''
      | Ret false => (Raise (HTTPException 403 "Admin role required"), w'')
      | Raise e => (Raise e, w'')
      end
  end.
Proof.
  unfold requires_admin.
  destruct (authenticate auth w) as [[payload|e] w'] eqn:Ha.
  - rewrite (requires_auth_ret _ _ _ _ _ _ Ha). cbn [scope_check].
    unfold bindM, lift. cbn [current_user set_current_user].
    destruct (is_admin_from_payload (VDict payload)) as [[|]|e]; reflexivity.
  - apply requires_auth_raise, Ha.
Qed.

End KeyCache.


Lemma null_body_leaves_cache_empty_witness :
  exists w',
    get_jwks (C := Lab.config) (Lab.cold (Lab.online VNone)) = (Ret VNone, w') /\
    _jwks_cache w' = VNone /\
    app_log w' = [] /\
    verify (C := Lab.config) (J := Lab.jose) "reader" (Lab.cold (Lab.online VNone))
    = (Raise (HTTPException 500 JWKS_UNAVAILABLE), w').
Proof.
  destruct (null_body_leaves_cache_empty
              (C := Lab.config) (J := Lab.jose)
              (Lab.cold (Lab.online VNone)) 200 eq_refl)
    as (w' & Hg & Hc & Hl & _ & Hv).
  - discriminate.
  - reflexivity.
  - reflexivity.
  - exists w'. repeat split; [exact Hg|exact Hc|exact Hl|exact (Hv "reader")].
Defined.

Lemma malformed_key_set_raises_witness :
  let w := mkWorld (VList []) Lab.offline 1 [] None in
  jwt_get_unverified_header (Jose := Lab.jose) "reader"
  = Decoded (Lab.header "RS256" "k1") /\
  verify (C := Lab.config) (J := Lab.jose) "reader" w = (Raise AttributeError, w).
Proof.
  split; [reflexivity|].
  exact (proj1 (malformed_key_set_raises
                  (C := Lab.config) (J := Lab.jose) "reader"
                  (Lab.header "RS256" "k1")
                  (mkWorld (VList []) Lab.offline 1 [] None)
                  eq_refl eq_refl) eq_refl).
Defined.

(** ** More on header extraction *)

Lemma string_app_assoc (a b c : string) : (a ++ b) ++ c = a ++ (b ++ c).
Proof. induction a as [|x a IH]; simpl; [reflexivity|rewrite IH; reflexivity]. Qed.

Lemma string_app_empty (a : string) : a ++ "" = a.
Proof. induction a as [|x a IH]; simpl; [reflexivity|rewrite IH; reflexivity]. Qed.

Lemma spaceless_app (a b : string) :
  spaceless (a ++ b) = spaceless a && spaceless b.
Proof.
  induction a as [|x a IH]; simpl; [reflexivity|].
  rewrite IH. apply andb_assoc.
Qed.

Lemma eqb_empty_app (a : string) (c : ascii) (b : string) :
  String.eqb (a ++ String c b) "" = false.
Proof. destruct a; reflexivity. Qed.

(** Every part [split] returns is non-empty and free of white space. *)
Lemma split_aux_parts s :
  forall word t,
    spaceless word = true ->
    In t (split_aux s word) ->
    t <> "" /\ spaceless t = true.
Proof.
  induction s as [|c s IH]; intros word t Hw; cbn [split_aux].
  - destruct (String.eqb_spec word ""); [intros []|].
    intros [<-|[]]. split; assumption.
  - destruct (is_space c) eqn:Hc.
    + destruct (String.eqb_spec word "").
      * apply IH. reflexivity.
      * intros [<-|Hin]; [split; assumption|].
        exact (IH "" t eq_refl Hin).
    + apply IH. rewrite spaceless_app, Hw. simpl. rewrite Hc. reflexivity.
Qed.

Lemma split_aux_spaceless t :
  forall rest word,
    spaceless t = true ->
    split_aux (t ++ rest) word = split_aux rest (word ++ t).
Proof.
  induction t as [|c t IH]; intros rest word Ht.
  - rewrite string_app_empty. reflexivity.
  - simpl in Ht. apply andb_prop in Ht. destruct Ht as [Hc Ht].
    apply negb_true_iff in Hc.
    cbn [append split_aux]. rewrite Hc, (IH _ _ Ht), string_app_assoc.
    reflexivity.
Qed.

Lemma split_aux_blank b :
  forall rest word,
    blank b = true ->
    split_aux (b ++ rest) word =
    if String.eqb b "" then split_aux rest word
    else if String.eqb word "" then split_aux rest ""
         else word :: split_aux rest "".
Proof.
  induction b as [|c b IH]; intros rest word Hb; [reflexivity|].
  simpl in Hb. apply andb_prop in Hb. destruct Hb as [Hc Hb].
  cbn [append split_aux]. rewrite Hc.
  change (String.eqb (String c b) "") with false. cbn iota.
  destruct (String.eqb word ""); rewrite (IH _ _ Hb);
    destruct (String.eqb b ""); reflexivity.
Qed.

Lemma is_space_lower_char c : is_space (lower_char c) = is_space c.
Proof. destruct c as [[] [] [] [] [] [] [] []]; reflexivity. Qed.

Lemma spaceless_lower s : spaceless (lower s) = spaceless s.
Proof.
  induction s as [|c s IH]; simpl; [reflexivity|].
  rewrite is_space_lower_char, IH. reflexivity.
Qed.

(** X9. The token [_get_token_auth_header] hands to the verifier is never
    empty and never contains white space. *)
Theorem extracted_token_is_spaceless auth token :
  _get_token_auth_header auth = Ret token ->
  token <> "" /\ spaceless token = true.
Proof.
  intros H. pose proof (header_cases auth) as Hc. rewrite H in Hc.
  destruct Hc as (a & scheme & _ & Hs & _).
  apply (split_aux_parts a "" token eq_refl).
  unfold split in Hs. rewrite Hs. right. left. reflexivity.
Qed.

Lemma extracted_token_is_spaceless_witness :
  _get_token_auth_header (Some "  bearer   abc.def.ghi ") = Ret "abc.def.ghi" /\
  "abc.def.ghi" <> "" /\ spaceless "abc.def.ghi" = true.
Proof.
  split; [reflexivity|].
  exact (extracted_token_is_spaceless
           (Some "  bearer   abc.def.ghi ") "abc.def.ghi" eq_refl).
Defined.

(** X10. Extraction gives back the token that was sent: for a scheme that
    reads "bearer" in any case and a non-empty token without white space,
    separated by white space and with any white space before and after,
    [_get_token_auth_header] returns that token. *)
Theorem bearer_header_round_trip pad1 scheme sep token pad2 :
  lower scheme = "bearer" ->
  token <> "" ->
  spaceless token = true ->
  blank pad1 = true -> blank sep = true -> sep <> "" -> blank pad2 = true ->
  _get_token_auth_header (Some (pad1 ++ scheme ++ sep ++ token ++ pad2))
  = Ret token.
Proof.
  intros Hl Ht Hst Hp1 Hsep Hne Hp2.
  assert (Hss : spaceless scheme = true)
    by (rewrite <- spaceless_lower, Hl; reflexivity).
  assert (Hsn : String.eqb scheme "" = false)
    by (destruct scheme; [discriminate Hl|reflexivity]).
  assert (Htn : String.eqb token "" = false)
    by (destruct token; [contradiction|reflexivity]).
  assert (Hsp : split (pad1 ++ scheme ++ sep ++ token ++ pad2) = [scheme; token]).
  { unfold split.
    rewrite (split_aux_blank pad1 _ "" Hp1).
    assert (H1 : split_aux (scheme ++ sep ++ token ++ pad2) ""
                 = [scheme; token]).
    { rewrite (split_aux_spaceless scheme _ "" Hss). cbn [append].
      rewrite (split_aux_blank sep _ scheme Hsep).
      destruct (String.eqb_spec sep ""); [contradiction|]. rewrite Hsn.
      rewrite (split_aux_spaceless token _ "" Hst). cbn [append].
      rewrite <- (string_app_empty pad2), (split_aux_blank pad2 "" token Hp2).
      rewrite Htn. destruct (String.eqb pad2 ""); cbn [split_aux];
        rewrite ?Htn; reflexivity. }
    destruct (String.eqb pad1 ""); [exact H1|]. cbn [String.eqb]. exact H1. }
  unfold _get_token_auth_header.
  assert (Ha : String.eqb (pad1 ++ scheme ++ sep ++ token ++ pad2) "" = false).
  { destruct (String.eqb_spec (pad1 ++ scheme ++ sep ++ token ++ pad2) "")
      as [He|]; [|reflexivity].
    rewrite He in Hsp. discriminate Hsp. }
  cbn [truthy]. rewrite Ha, Hsp. cbn [negb index nth_error bind length].
  rewrite Hl. reflexivity.
Qed.

Lemma bearer_header_round_trip_witness :
  lower "BEARER" = "bearer" /\
  _get_token_auth_header (Some (" " ++ "BEARER" ++ "  " ++ "abc.def.ghi" ++ ""))
  = Ret "abc.def.ghi".
Proof.
  split; [reflexivity|].
  apply (bearer_header_round_trip " " "BEARER" "  " "abc.def.ghi" "");
    try reflexivity; discriminate.
Defined.

(** A Basic header at the guard. *)
Lemma malformed_header_rejected_witness :
  spec_malformed (Some "Basic dXNlcjpwYXNz") /\
  exists description,
    Lab.guard None (Some "Basic dXNlcjpwYXNz") Lab.warm
    = (Raise (HTTPException 401 description), Lab.warm).
Proof.
  assert (Hbad : spec_malformed (Some "Basic dXNlcjpwYXNz"))
    by (cbv; discriminate).
  split; [exact Hbad|].
  apply (malformed_header_rejected (C := Lab.config) (J := Lab.jose)
           None Lab.handler (Some "Basic dXNlcjpwYXNz") Lab.warm Hbad).
  intros a [= <-] H. discriminate H.
Defined.

(** ** More on the policy *)

(** Scopes and permissions granting together. *)
Lemma scope_check_list_permissions_witness :
  let payload := [("scope", VStr "read:trips write:trips");
                  ("permissions", VList [VStr "delete:trip"])] in
  scope_check (Some ["read:trips"; "delete:trip"]) payload = Ret tt /\
  scope_check (Some ["read:trips"; "delete:investor"]) payload
  = abort 403 "insufficient_scope".
Proof.
  split.
  - exact (scope_check_list_permissions
             ["read:trips"; "delete:trip"]
             [("scope", VStr "read:trips write:trips");
              ("permissions", VList [VStr "delete:trip"])]
             (or_intror (ex_intro _ [VStr "delete:trip"] eq_refl))).
  - exact (scope_check_list_permissions
             ["read:trips"; "delete:investor"]
             [("scope", VStr "read:trips write:trips");
              ("permissions", VList [VStr "delete:trip"])]
             (or_intror (ex_intro _ [VStr "delete:trip"] eq_refl))).
Defined.

Lemma scope_loop_not_iterable required token_scopes p :
  not_iterable p = true ->
  scope_loop required token_scopes p =
  if forallb (fun scope => existsb (String.eqb scope) token_scopes) required
  then Ret tt
  else Raise TypeError.
Proof.
  intros Hp.
  induction required as [|scope rest IH]; cbn [scope_loop forallb];
    [reflexivity|].
  destruct (existsb (String.eqb scope) token_scopes); cbn [andb]; [exact IH|].
  destruct p; try discriminate; reflexivity.
Qed.

(** X13. A "permissions" claim that is [null], a boolean or a number
    cannot be searched: the scope check passes only if the "scope" claim
    alone grants every required scope, and otherwise it does not abort
    with 403 but raises [TypeError]. *)
Theorem scope_check_on_unwalkable_permissions required payload p :
  lookup "permissions" payload = Some p ->
  not_iterable p = true ->
  scope_check (Some required) payload =
  if forallb (fun scope => existsb (String.eqb scope) (scope_tokens payload))
             required
  then Ret tt
  else Raise TypeError.
Proof.
  intros Hl Hp. destruct required as [|scope rest]; [reflexivity|].
  unfold scope_check. rewrite Hl.
  exact (scope_loop_not_iterable (scope :: rest) _ p Hp).
Qed.

Lemma scope_check_on_unwalkable_permissions_witness :
  scope_check (Some ["read:trips"]) [("permissions", VNone)] = Raise TypeError /\
  scope_check (Some ["read:trips"])
              [("scope", VStr "read:trips"); ("permissions", VNone)] = Ret tt.
Proof.
  split.
  - exact (scope_check_on_unwalkable_permissions
             ["read:trips"] [("permissions", VNone)] VNone eq_refl eq_refl).
  - exact (scope_check_on_unwalkable_permissions
             ["read:trips"]
             [("scope", VStr "read:trips"); ("permissions", VNone)] VNone
             eq_refl eq_refl).
Defined.

Lemma permissions_test d :
  match (if truthy (match lookup "permissions" d with
                    | Some v => v | None => VList [] end)
         then match lookup "permissions" d with
              | Some v => v | None => VList [] end
         else VList []) with
  | VList l => existsb (py_eq (VStr "delete:trip")) l
               || existsb (py_eq (VStr "delete:investor")) l
  | _ => false
  end = admin_by_permissions d.
Proof.
  unfold admin_by_permissions, claim.
  destruct (lookup "permissions" d) as [[|b|z|s|[|x l]|[|x l]]|];
    cbn; try reflexivity.
  - destruct b; reflexivity.
  - destruct (z =? 0); reflexivity.
  - destruct (String.eqb s ""); reflexivity.
Qed.

(** X14. A delete permission settles the matter: when the list-valued
    "permissions" claim holds "delete:trip" or "delete:investor",
    [is_admin_from_payload] returns true without looking at any role
    claim, whatever shape those have. *)
Theorem delete_permission_makes_admin d :
  admin_by_permissions d = true ->
  is_admin_from_payload (VDict d) = Ret true.
Proof.
  intros H.
  destruct d as [|kv d']; [discriminate H|].
  remember (kv :: d') as d eqn:Hd.
  unfold is_admin_from_payload.
  replace (truthy (VDict d)) with true by (subst d; reflexivity).
  cbn [negb]. unfold get_default. cbn [bind].
  rewrite permissions_test, H. reflexivity.
Qed.

Lemma delete_permission_makes_admin_witness :
  is_admin_from_payload
    (VDict [("roles", VList [VInt 1]);
            ("permissions", VList [VStr "read:trips"; VStr "delete:investor"])])
  = Ret true.
Proof.
  exact (delete_permission_makes_admin
           [("roles", VList [VInt 1]);
            ("permissions", VList [VStr "read:trips"; VStr "delete:investor"])]
           eq_refl).
Defined.

(** ** app.py: origins, preflight and the request log *)

Module AppFacts.

Import App.

Lemma rstrip_idempotent s : rstrip (rstrip s) = rstrip s.
Proof.
  induction s as [|c s IH]; [reflexivity|].
  cbn [rstrip].
  destruct (is_space c && String.eqb (rstrip s) "") eqn:Hc; [reflexivity|].
  cbn [rstrip]. rewrite IH, Hc. reflexivity.
Qed.

Lemma lstrip_head s :
  lstrip s = "" \/
  exists c r, lstrip s = String c r /\ is_space c = false.
Proof.
  induction s as [|c s IH]; [left; reflexivity|].
  cbn [lstrip]. destruct (is_space c) eqn:Hc; [exact IH|].
  right. exists c, s. split; [reflexivity|assumption].
Qed.

(** [strip] leaves nothing to strip. *)
Lemma strip_idempotent s : strip (strip s) = strip s.
Proof.
  unfold strip.
  destruct (lstrip_head s) as [->|(c & r & -> & Hc)]; [reflexivity|].
  cbn [rstrip]. rewrite Hc. cbn [andb lstrip]. rewrite Hc.
  cbn [rstrip]. rewrite Hc, rstrip_idempotent. reflexivity.
Qed.

Lemma existsb_py_eq_str o l :
  existsb (py_eq (VStr o)) (map VStr l) = existsb (String.eqb o) l.
Proof.
  induction l as [|x l IH]; [reflexivity|].
  cbn [map existsb]. rewrite IH. reflexivity.
Qed.

Lemma map_VStr_inj (a b : list string) : map VStr a = map VStr b -> a = b.
Proof.
  revert b. induction a as [|x a IH]; intros [|y b] H; try discriminate;
    [reflexivity|].
  injection H as -> H. f_equal. exact (IH _ H).
Qed.

(** The allowed origins are the wildcard or a list of non-empty strings
    without white space around them. *)
Lemma cors_origins_shape (FRONTEND_ORIGINS CORS_ORIGINS : option string) :
  cors_origins FRONTEND_ORIGINS CORS_ORIGINS = VStr "*" \/
  exists l,
    cors_origins FRONTEND_ORIGINS CORS_ORIGINS = VList (map VStr l) /\
    Forall (fun o => o <> "" /\ strip o = o) l.
Proof.
  unfold cors_origins.
  match goal with
  | |- context [strip ?r] => generalize (strip r)
  end.
  intros raw.
  destruct (String.eqb raw "*" || String.eqb (lower raw) "any");
    [left; reflexivity|right].
  exists (map strip (filter (fun o => truthy (VStr (strip o))) (split_on "," raw))).
  split; [rewrite map_map; reflexivity|].
  apply Forall_forall. intros o Hin.
  apply in_map_iff in Hin. destruct Hin as (x & <- & Hx).
  apply filter_In in Hx. destruct Hx as [_ Hx].
  split; [|apply strip_idempotent].
  intros He. rewrite He in Hx. discriminate Hx.
Qed.

(** X15. Whatever the two environment variables hold, the allowed origins
    are either the wildcard "*" or a list of strings none of which is
    empty or has white space around it: blank entries between commas are
    dropped and the others are stripped.  FRONTEND_ORIGINS decides when it
    is set and not empty, CORS_ORIGINS otherwise, and with neither the one
    origin allowed is http://localhost:5173. *)
Theorem configured_origins_are_clean
        (FRONTEND_ORIGINS CORS_ORIGINS : option string) :
  (cors_origins FRONTEND_ORIGINS CORS_ORIGINS = VStr "*" \/
   exists l,
     cors_origins FRONTEND_ORIGINS CORS_ORIGINS = VList (map VStr l) /\
     Forall (fun o => o <> "" /\ strip o = o) l) /\
  (getenv_truthy FRONTEND_ORIGINS = true ->
   cors_origins FRONTEND_ORIGINS CORS_ORIGINS
   = cors_origins FRONTEND_ORIGINS None) /\
  (getenv_truthy FRONTEND_ORIGINS = false ->
   cors_origins FRONTEND_ORIGINS CORS_ORIGINS
   = cors_origins None CORS_ORIGINS) /\
  (getenv_truthy FRONTEND_ORIGINS = false ->
   getenv_truthy CORS_ORIGINS = false ->
   cors_origins FRONTEND_ORIGINS CORS_ORIGINS
   = VList [VStr "http://localhost:5173"]).
Proof.
  split; [apply cors_origins_shape|].
  unfold cors_origins, getenv_truthy.
  destruct FRONTEND_ORIGINS as [a|], CORS_ORIGINS as [b|];
    repeat split; intros; try discriminate;
    repeat match goal with
           | H : truthy ?x = _ |- _ => rewrite H
           end;
    try reflexivity.
  all: destruct (truthy (VStr b)); reflexivity.
Qed.

Lemma configured_origins_are_clean_witness :
  getenv_truthy (Some "") = false /\
  cors_origins (Some "") (Some "Any ") = VStr "*" /\
  cors_origins (Some "") (Some "https://app.example, ")
  = VList [VStr "https://app.example"].
Proof.
  split; [reflexivity|split].
  - rewrite (proj1 (proj2 (proj2 (configured_origins_are_clean
                                    (Some "") (Some "Any ")))) eq_refl).
    reflexivity.
  - rewrite (proj1 (proj2 (proj2 (configured_origins_are_clean
                                    (Some "") (Some "https://app.example, "))))
                   eq_refl).
    reflexivity.
Defined.

(** X16. A request that is not OPTIONS passes [handle_preflight].  An
    OPTIONS request is always answered 204 with an empty body, without an
    exception, and the response carries the CORS headers exactly when the
    origins are the wildcard (allowing "*") or the request's Origin header
    is, character for character, one of the configured origins (allowing
    that origin); an origin that is not configured is never allowed. *)
Theorem preflight_allows_configured_origins_only
        (FRONTEND_ORIGINS CORS_ORIGINS : option string) method origin :
  let cors := cors_origins FRONTEND_ORIGINS CORS_ORIGINS in
  (method <> "OPTIONS" -> handle_preflight cors method origin = Ret None) /\
  (method = "OPTIONS" ->
   (cors = VStr "*" ->
    handle_preflight cors method origin
    = Ret (Some (mkResponse "" 204 (preflight_headers "*")))) /\
   (forall l,
      cors = VList (map VStr l) ->
      handle_preflight cors method origin
      = Ret (Some (mkResponse "" 204
                     match origin with
                     | Some o => if existsb (String.eqb o) l
                                 then preflight_headers o
                                 else []
                     | None => []
                     end)))).
Proof.
  intros cors. split.
  - intros Hm. unfold handle_preflight.
    destruct (String.eqb_spec method "OPTIONS"); [contradiction|reflexivity].
  - intros ->. split.
    + intros ->. reflexivity.
    + intros l Hl.
      destruct (cors_origins_shape FRONTEND_ORIGINS CORS_ORIGINS)
        as [Hw|(l' & Hl' & Hclean)]; fold cors in Hw || fold cors in Hl'.
      * rewrite Hw in Hl. discriminate Hl.
      * assert (l' = l)
          by (rewrite Hl' in Hl; injection Hl as Hl; exact (map_VStr_inj _ _ Hl)).
        subst l'. rewrite Hl. unfold handle_preflight.
        cbn [String.eqb Ascii.eqb Bool.eqb negb py_eq].
        destruct origin as [o|]; [|reflexivity].
        cbn [truthy]. destruct (String.eqb_spec o "") as [->|Hne]; cbn [negb].
        -- cbn [bind].
           replace (existsb (String.eqb "") l) with false; [reflexivity|].
           symmetry. apply not_true_is_false. intros He.
           apply existsb_exists in He. destruct He as (x & Hin & He).
           apply String.eqb_eq in He. subst x.
           rewrite Forall_forall in Hclean.
           destruct (Hclean _ Hin) as [Hx _]. contradiction.
        -- cbn [py_in bind]. rewrite existsb_py_eq_str.
           destruct (existsb (String.eqb o) l) eqn:He; cbn [truthy].
           ++ destruct (String.eqb_spec o ""); [contradiction|reflexivity].
           ++ reflexivity.
Qed.

Lemma dict_set_in {V : Type} (k : string) (v : V) d x :
  In x (dict_set k v d) -> In x d \/ x = (k, v).
Proof.
  induction d as [|[k' v'] d IH]; cbn [dict_set].
  - intros [<-|[]]. right. reflexivity.
  - destruct (String.eqb_spec k k') as [->|Hne].
    + intros [<-|Hin]; [right; reflexivity|left; right; assumption].
    + intros [<-|Hin]; [left; left; reflexivity|].
      destruct (IH Hin) as [H|H]; [left; right; assumption|right; assumption].
Qed.

Lemma dict_get_in {V : Type} (k : string) (d : list (string * V)) v :
  dict_get k d = Some v -> In (k, v) d.
Proof.
  induction d as [|[k' v'] d IH]; cbn [dict_get]; [discriminate|].
  destruct (String.eqb_spec k k') as [->|Hne].
  - intros [= ->]. left. reflexivity.
  - intros H. right. apply IH, H.
Qed.

Lemma logged_hdrs_in items :
  forall hdrs x,
    In x (logged_hdrs items hdrs) ->
    In x hdrs \/ (In (fst x) LOGGED_HEADERS /\ In x items).
Proof.
  induction items as [|[k v] items IH]; intros hdrs x; cbn [logged_hdrs].
  - intros H. left. exact H.
  - destruct (existsb (String.eqb k) LOGGED_HEADERS) eqn:Hk.
    + intros H. destruct (IH _ _ H) as [H1|[H1 H2]].
      * destruct (dict_set_in _ _ _ _ H1) as [H3 | ->]; [left; assumption|].
        right. split; [|left; reflexivity].
        apply existsb_exists in Hk. destruct Hk as (y & Hy & He).
        apply String.eqb_eq in He. subst y. exact Hy.
      * right. split; [assumption|right; assumption].
    + intros H. destruct (IH _ _ H) as [H1|[H1 H2]];
        [left; assumption|right; split; [assumption|right; assumption]].
Qed.

Lemma take_length n : forall s, (String.length (take n s) <= n)%nat.
Proof.
  induction n as [|n IH]; intros [|c s]; cbn; try lia.
  specialize (IH s). lia.
Qed.

Lemma take_prefix n : forall s, String.prefix (take n s) s = true.
Proof.
  induction n as [|n IH]; intros [|c s]; cbn [take String.prefix];
    try reflexivity.
  destruct (ascii_dec c c) as [_|Hne]; [apply IH|elim Hne; reflexivity].
Qed.

(** X17. What [log_request_info] writes of a request: nothing for OPTIONS;
    otherwise of the headers only Host, Origin and Content-Type, each with
    a value the request carries under that name, so never the
    Authorization header; and of the body at most its first 500
    characters. *)
Theorem request_log_leaves_out_authorization r record :
  log_request_info r = Some record ->
  req_method r <> "OPTIONS" /\
  (forall k v, In (k, v) (dbg_hdrs record) ->
               In k LOGGED_HEADERS /\ In (k, v) (req_headers r)) /\
  dict_get "Authorization" (dbg_hdrs record) = None /\
  (String.length (dbg_body_preview record) <= 500)%nat /\
  String.prefix (dbg_body_preview record) (req_data r) = true.
Proof.
  unfold log_request_info.
  pose proof (take_length 500 (req_data r)) as Hlen.
  pose proof (take_prefix 500 (req_data r)) as Hpre.
  revert Hlen Hpre. generalize (take 500 (req_data r)). intros preview Hlen Hpre.
  destruct (String.eqb_spec (req_method r) "OPTIONS") as [|Hm]; [discriminate|].
  intros [= <-]. cbn [dbg_hdrs dbg_body_preview].
  assert (Hh : forall k v, In (k, v) (logged_hdrs (req_headers r) []) ->
                           In k LOGGED_HEADERS /\ In (k, v) (req_headers r)).
  { intros k v H. destruct (logged_hdrs_in _ _ _ H) as [[]|H1]. exact H1. }
  split; [exact Hm|split; [exact Hh|split; [|split]]].
  - destruct (dict_get "Authorization" (logged_hdrs (req_headers r) []))
      as [v|] eqn:Hg; [|reflexivity].
    destruct (Hh _ _ (dict_get_in _ _ _ Hg)) as [Hin _].
    cbn in Hin. intuition discriminate.
  - match goal with
    | |- context [if ?b then preview else _] => destruct b
    end; [exact Hlen|cbn; lia].
  - match goal with
    | |- context [if ?b then preview else _] => destruct b
    end; [exact Hpre|].
    destruct (req_data r); reflexivity.
Qed.

Lemma request_log_leaves_out_authorization_witness :
  let r := mkRequest "POST" "/trips"
             [("Host", "api.example"); ("Authorization", "Bearer reader");
              ("Content-Type", "application/json")]
             "{}" in
  let record :=
    mkDebug "Incoming request: %s %s headers=%s body_preview=%s"
            "POST" "/trips"
            [("Host", "api.example"); ("Content-Type", "application/json")]
            "{}" in
  log_request_info r = Some record /\
  dict_get "Authorization" (dbg_hdrs record) = None.
Proof.
  split; [reflexivity|].
  exact (proj1 (proj2 (proj2 (request_log_leaves_out_authorization
     (mkRequest "POST" "/trips"
        [("Host", "api.example"); ("Authorization", "Bearer reader");
         ("Content-Type", "application/json")] "{}")
     (mkDebug "Incoming request: %s %s headers=%s body_preview=%s"
        "POST" "/trips"
        [("Host", "api.example"); ("Content-Type", "application/json")] "{}")
     eq_refl)))).
Defined.

Lemma preflight_allows_configured_origins_only_witness :
  cors_origins (Some " https://app.example , ,https://admin.example ") None
  = VList (map VStr ["https://app.example"; "https://admin.example"]) /\
  handle_preflight
    (cors_origins (Some " https://app.example , ,https://admin.example ") None)
    "OPTIONS" (Some "https://evil.example")
  = Ret (Some (mkResponse "" 204 [])) /\
  handle_preflight
    (cors_origins (Some " https://app.example , ,https://admin.example ") None)
    "OPTIONS" (Some "https://admin.example")
  = Ret (Some (mkResponse "" 204 (preflight_headers "https://admin.example"))).
Proof.
  split; [reflexivity|].
  pose proof (proj2 (proj2 (preflight_allows_configured_origins_only
                       (Some " https://app.example , ,https://admin.example ")
                       None "OPTIONS" (Some "https://evil.example")) eq_refl)
                ["https://app.example"; "https://admin.example"] eq_refl) as H1.
  pose proof (proj2 (proj2 (preflight_allows_configured_origins_only
                       (Some " https://app.example , ,https://admin.example ")
                       None "OPTIONS" (Some "https://admin.example")) eq_refl)
                ["https://app.example"; "https://admin.example"] eq_refl) as H2.
  split; [exact H1|exact H2].
Defined.

End AppFacts.

(** ** app.py: documents *)

Module AppDocuments.

Import App.

Lemma nodup_keys_unique {V : Type} (d : list (string * V)) k v1 v2 :
  NoDup (map fst d) -> In (k, v1) d -> In (k, v2) d -> v1 = v2.
Proof.
  induction d as [|[k' v'] d IH]; intros Hnd H1 H2; [destruct H1|].
  cbn [map fst] in Hnd. inversion Hnd as [|? ? Hnotin Hnd']; subst.
  destruct H1 as [E1|H1]; destruct H2 as [E2|H2].
  - congruence.
  - injection E1 as -> _. elim Hnotin. exact (in_map fst _ _ H2).
  - injection E2 as -> _. elim Hnotin. exact (in_map fst _ _ H1).
  - exact (IH Hnd' H1 H2).
Qed.

Lemma dict_get_none {V : Type} (d : list (string * V)) k :
  dict_get k d = None -> forall kv, In kv d -> fst kv <> k.
Proof.
  induction d as [|[k' v'] d IH]; intros Hg kv; [intros []|].
  cbn [dict_get] in Hg. destruct (String.eqb_spec k k') as [|Hne];
    [discriminate|].
  intros [<-|Hin]; [cbn; congruence|exact (IH Hg kv Hin)].
Qed.

(** On distinct keys [d[k] = v] for a key that is there changes the one
    item under it. *)
Lemma dict_set_map {V : Type} (d : list (string * V)) k v :
  NoDup (map fst d) ->
  In k (map fst d) ->
  dict_set k v d
  = map (fun kv => if String.eqb (fst kv) k then (fst kv, v) else kv) d.
Proof.
  induction d as [|[k' v'] d IH]; intros Hnd Hin; [destruct Hin|].
  cbn [map fst] in Hnd. inversion Hnd as [|? ? Hnotin Hnd']; subst.
  cbn [dict_set map fst].
  destruct (String.eqb_spec k k') as [->|Hne].
  - rewrite String.eqb_refl. f_equal.
    rewrite <- (map_id d) at 1. apply map_ext_in. intros kv Hkv.
    destruct (String.eqb_spec (fst kv) k') as [He|]; [|reflexivity].
    elim Hnotin. rewrite <- He. exact (in_map fst _ _ Hkv).
  - destruct (String.eqb_spec k' k) as [|_]; [congruence|]. f_equal.
    apply IH; [exact Hnd'|]. destruct Hin as [Hin|Hin]; [cbn in Hin; congruence|exact Hin].
Qed.

Section Documents.

Context {B : Backend}.

Lemma isoformat_item_fst kv : fst (isoformat_item kv) = fst kv.
Proof. unfold isoformat_item. destruct (snd kv); reflexivity. Qed.

(** The loop over the snapshot, item by item: an item of the document is
    converted when its key is in the snapshot. *)
Lemma isoformat_loop_map (items : document) :
  NoDup (map fst items) ->
  forall doc : document,
    NoDup (map fst doc) ->
    (forall kv, In kv items -> In kv doc) ->
    isoformat_loop items doc
    = map (fun kv => if existsb (String.eqb (fst kv)) (map fst items)
                     then isoformat_item kv else kv) doc.
Proof.
  induction items as [|[k v] items IH]; intros Hni doc Hnd Hsub.
  - cbn [isoformat_loop map existsb]. symmetry. apply map_id.
  - cbn [map fst] in Hni. inversion Hni as [|? ? Hfresh Hni']; subst.
    specialize (IH Hni').
    assert (Hkv : In (k, v) doc) by (apply Hsub; left; reflexivity).
    assert (Hrest : forall doc', doc' = doc ->
              isoformat_item (k, v) = (k, v) ->
              isoformat_loop items doc'
              = map (fun kv => if existsb (String.eqb (fst kv))
                                          (map fst ((k, v) :: items))
                               then isoformat_item kv else kv) doc).
    { intros doc' -> Hsame.
      rewrite (IH doc Hnd (fun kv H => Hsub kv (or_intror H))).
      apply map_ext_in. intros [k0 v0] Hin. cbn [map fst existsb].
      destruct (String.eqb_spec k0 k) as [->|]; [|reflexivity].
      rewrite (nodup_keys_unique doc k v0 v Hnd Hin Hkv), Hsame. cbn [orb].
      destruct (existsb (String.eqb k) (map fst items)); reflexivity. }
    destruct v as [t| | |]; try (apply Hrest; reflexivity).
    cbn [isoformat_loop].
    assert (Hk : In k (map fst doc)) by exact (in_map fst _ _ Hkv).
    rewrite (dict_set_map doc k _ Hnd Hk).
    rewrite IH.
    + rewrite map_map. apply map_ext_in. intros [k0 v0] Hin.
      cbn [map fst existsb].
      destruct (String.eqb_spec k0 k) as [->|].
      * rewrite (nodup_keys_unique doc k v0 (SDatetime t) Hnd Hin Hkv).
        cbn [fst orb]. unfold isoformat_item. cbn [snd fst].
        destruct (existsb (String.eqb k) (map fst items)); reflexivity.
      * cbn [fst orb]. reflexivity.
    + rewrite map_map.
      replace (map (fun x => fst (if String.eqb (fst x) k
                                  then (fst x, SValue (VStr (isoformat t)))
                                  else x)) doc)
        with (map fst doc); [exact Hnd|].
      apply map_ext. intros kv. destruct (String.eqb (fst kv) k); reflexivity.
    + intros kv Hin.
      pose proof (Hsub kv (or_intror Hin)) as Hd.
      apply in_map_iff. exists kv. split; [|exact Hd].
      destruct (String.eqb_spec (fst kv) k) as [He|]; [|reflexivity].
      elim Hfresh. rewrite <- He. exact (in_map fst _ _ Hin).
Qed.

Lemma isoformat_loop_all (doc : document) :
  NoDup (map fst doc) ->
  isoformat_loop doc doc = map isoformat_item doc.
Proof.
  intros Hnd. rewrite (isoformat_loop_map doc Hnd doc Hnd (fun kv H => H)).
  apply map_ext_in. intros kv Hin.
  replace (existsb (String.eqb (fst kv)) (map fst doc)) with true; [reflexivity|].
  symmetry. apply existsb_exists. exists (fst kv).
  split; [exact (in_map fst _ _ Hin)|apply String.eqb_refl].
Qed.

Lemma serialize_item_twice str_other kv :
  serialize_item str_other (serialize_item str_other kv)
  = serialize_item str_other kv.
Proof.
  unfold serialize_item. destruct kv as [k v]. cbn [fst snd].
  destruct (String.eqb k "_id") eqn:Hk; cbn [fst snd]; rewrite ?Hk.
  - reflexivity.
  - destruct v; cbn [fst snd]; rewrite ?Hk; reflexivity.
Qed.

Lemma serialize_doc_items str_other (doc : document) :
  NoDup (map fst doc) ->
  serialize_doc str_other doc = map (serialize_item str_other) doc.
Proof.
  intros Hnd. unfold serialize_doc.
  destruct (dict_get "_id" doc) as [v|] eqn:Hg.
  - pose proof (AppFacts.dict_get_in _ _ _ Hg) as Hin.
    assert (Hk : In "_id" (map fst doc)) by exact (in_map fst _ _ Hin).
    rewrite (dict_set_map doc "_id" _ Hnd Hk).
    rewrite isoformat_loop_all.
    + rewrite map_map. apply map_ext_in. intros [k0 v0] H0.
      unfold serialize_item. cbn [fst snd].
      destruct (String.eqb_spec k0 "_id") as [->|]; [|reflexivity].
      rewrite (nodup_keys_unique doc "_id" v0 v Hnd H0 Hin). reflexivity.
    + rewrite map_map.
      replace (map (fun x => fst (if String.eqb (fst x) "_id"
                                  then (fst x, SValue (VStr (py_str str_other v)))
                                  else x)) doc)
        with (map fst doc); [exact Hnd|].
      apply map_ext. intros kv. destruct (String.eqb (fst kv) "_id"); reflexivity.
  - rewrite (isoformat_loop_all doc Hnd).
    apply map_ext_in. intros kv Hin. unfold serialize_item.
    destruct (String.eqb_spec (fst kv) "_id") as [He|]; [|reflexivity].
    elim (dict_get_none doc "_id" Hg kv Hin He).
Qed.

(** X18. On a document (its keys are distinct) [serialize_doc] keeps the
    keys and their order, puts [str(...)] of the value under "_id",
    replaces every other date by its [isoformat()] and leaves the rest as
    it is; so no date is left at the top of the result, "_id" is a string,
    and serializing twice is serializing once. *)
Theorem serialize_doc_makes_dates_and_id_text str_other (doc : document) :
  NoDup (map fst doc) ->
  serialize_doc str_other doc = map (serialize_item str_other) doc /\
  map fst (serialize_doc str_other doc) = map fst doc /\
  forallb (fun kv => negb (is_datetime (snd kv))) (serialize_doc str_other doc)
  = true /\
  (forall v, In ("_id", v) (serialize_doc str_other doc) ->
             exists s, v = SValue (VStr s)) /\
  serialize_doc str_other (serialize_doc str_other doc)
  = serialize_doc str_other doc.
Proof.
  intros Hnd.
  pose proof (serialize_doc_items str_other doc Hnd) as Hs.
  assert (Hk : map fst (map (serialize_item str_other) doc) = map fst doc).
  { rewrite map_map. apply map_ext. intros kv. unfold serialize_item.
    destruct (String.eqb (fst kv) "_id"); [reflexivity|].
    destruct (snd kv); reflexivity. }
  rewrite Hs. split; [reflexivity|split; [exact Hk|split; [|split]]].
  - apply forallb_forall. intros kv Hin.
    apply in_map_iff in Hin. destruct Hin as ([k v] & <- & _).
    unfold serialize_item. cbn [fst snd].
    destruct (String.eqb k "_id"); [reflexivity|]. destruct v; reflexivity.
  - intros v Hin. apply in_map_iff in Hin.
    destruct Hin as ([k v0] & He & _). unfold serialize_item in He.
    cbn [fst snd] in He.
    destruct (String.eqb_spec k "_id") as [->|Hne].
    + injection He as <-. eexists. reflexivity.
    + destruct v0; injection He as Hk' _; congruence.
  - rewrite (serialize_doc_items str_other (map (serialize_item str_other) doc));
      [|rewrite Hk; exact Hnd].
    rewrite map_map. apply map_ext. intros kv. apply serialize_item_twice.
Qed.

Context {St : Store}.

(** X19. [create_investor] stores complete investors only.  Whenever it
    answers, it answers 400 and leaves the collection alone, or it answers
    201 after exactly one [insert_one]: then the body was a JSON object in
    which name (or, failing that, nome), corretora, valor_investido (or
    valor) and perfil are all truthy and [float] accepts the amount; the
    stored document holds these four and the creation date, and the
    response repeats them with the date as text and the new "_id". *)
Theorem create_investor_stores_complete_investors
        json utcnow (db : collection) body status db' :
  create_investor json utcnow db = Ret ((body, status), db') ->
  (status = 400 /\ db' = db /\
   (body = error_body REQUIRED_FIELDS \/ body = error_body NOT_NUMERIC)) \/
  (status = 201 /\
   exists d valor_float,
     json = VDict d /\
     let name := if truthy (claim d "name") then claim d "name"
                 else claim d "nome" in
     let corretora := claim d "corretora" in
     let valor := if truthy (claim d "valor_investido")
                  then claim d "valor_investido" else claim d "valor" in
     let perfil := claim d "perfil" in
     truthy name = true /\ truthy corretora = true /\
     truthy valor = true /\ truthy perfil = true /\
     py_float valor = Some valor_float /\
     db' = snd (insert_one
                  (investor_doc name corretora valor_float perfil utcnow) db) /\
     body = [("name", SValue name); ("corretora", SValue corretora);
             ("valor_investido", SFloat valor_float);
             ("perfil", SValue perfil);
             ("created_at", SValue (VStr (isoformat utcnow)));
             ("_id", SValue (VStr (str_ObjectId
                (fst (insert_one
                        (investor_doc name corretora valor_float perfil utcnow)
                        db)))))]).
Proof.
  unfold create_investor.
  assert (Hempty : forall r : document * Z * collection,
            Ret ((error_body REQUIRED_FIELDS, 400), db) = Ret r ->
            r = ((body, status), db') ->
            status = 400 /\ db' = db /\
            (body = error_body REQUIRED_FIELDS \/ body = error_body NOT_NUMERIC)).
  { intros r [= <-] [= <- <- <-]. repeat split. left. reflexivity. }
  destruct json as [|b|z|s|l|d].
  - intros H. left. exact (Hempty _ H eq_refl).
  - destruct b; [discriminate|]. intros H. left. exact (Hempty _ H eq_refl).
  - cbn [truthy]. destruct (negb (z =? 0)); [discriminate|].
    intros H. left. exact (Hempty _ H eq_refl).
  - cbn [truthy]. destruct (negb (String.eqb s "")); [discriminate|].
    intros H. left. exact (Hempty _ H eq_refl).
  - destruct l; [|discriminate]. intros H. left. exact (Hempty _ H eq_refl).
  - replace (if truthy (VDict d) then VDict d else VDict []) with (VDict d)
      by (destruct d; reflexivity).
    unfold get, get_default. cbn [bind].
    fold (claim d "name"). fold (claim d "nome"). fold (claim d "corretora").
    fold (claim d "valor_investido"). fold (claim d "valor").
    fold (claim d "perfil").
    replace (if truthy (claim d "name") then Ret (claim d "name")
             else Ret (claim d "nome"))
      with (Ret (A := value) (if truthy (claim d "name") then claim d "name"
                              else claim d "nome"))
      by (destruct (truthy (claim d "name")); reflexivity).
    replace (if truthy (claim d "valor_investido")
             then Ret (claim d "valor_investido") else Ret (claim d "valor"))
      with (Ret (A := value) (if truthy (claim d "valor_investido")
                              then claim d "valor_investido"
                              else claim d "valor"))
      by (destruct (truthy (claim d "valor_investido")); reflexivity).
    cbn [bind].
    set (name := if truthy (claim d "name") then claim d "name"
                 else claim d "nome").
    set (valor := if truthy (claim d "valor_investido")
                  then claim d "valor_investido" else claim d "valor").
    destruct (truthy name) eqn:Hn; cbn [andb negb];
      [|intros [= <- <- <-]; left; repeat split; left; reflexivity].
    destruct (truthy (claim d "corretora")) eqn:Hc; cbn [andb negb];
      [|intros [= <- <- <-]; left; repeat split; left; reflexivity].
    destruct (truthy valor) eqn:Hv; cbn [andb negb];
      [|intros [= <- <- <-]; left; repeat split; left; reflexivity].
    destruct (truthy (claim d "perfil")) eqn:Hp; cbn [andb negb];
      [|intros [= <- <- <-]; left; repeat split; left; reflexivity].
    destruct (py_float valor) as [valor_float|] eqn:Hf;
      [|intros [= <- <- <-]; left; repeat split; right; reflexivity].
    destruct (insert_one _ db) as [inserted_id db1] eqn:Hi.
    intros [= <- <- <-]. right. split; [reflexivity|].
    exists d, valor_float. cbn zeta. fold name. fold valor.
    rewrite Hi. repeat split; assumption.
Qed.

(** X20. The body [create_investor] is given need not be an object: a
    falsy body ([null], an empty object or list, zero, the empty string)
    is read as an empty object and answered 400 for its missing fields; a
    truthy body of another shape (a non-empty list, a number, a string)
    has no [get], and the view ends in [AttributeError] without touching
    the collection. *)
Theorem create_investor_on_non_object_body json utcnow (db : collection) :
  (truthy json = false ->
   create_investor json utcnow db
   = Ret ((error_body REQUIRED_FIELDS, 400), db)) /\
  (truthy json = true -> is_dict json = false ->
   create_investor json utcnow db = Raise AttributeError).
Proof.
  unfold create_investor. split.
  - intros ->. reflexivity.
  - intros -> Hd. destruct json; try discriminate; reflexivity.
Qed.

End Documents.

Lemma serialize_doc_makes_dates_and_id_text_witness :
  let doc : document (B := Lab.backend) :=
    [("_id", SObjectId (B := Lab.backend) 0%nat);
     ("titulo", SValue (VStr "Lisboa"));
     ("created_at", SDatetime (B := Lab.backend) 0)] in
  NoDup (map fst doc) /\
  serialize_doc Lab.str_other doc
  = [("_id", SValue (VStr "65a000000000000000000000"));
     ("titulo", SValue (VStr "Lisboa"));
     ("created_at", SValue (VStr "1970-01-01T00:00:00"))].
Proof.
  assert (Hnd : NoDup ["_id"; "titulo"; "created_at"]).
  { repeat constructor; cbn; intuition discriminate. }
  split; [exact Hnd|].
  exact (proj1 (serialize_doc_makes_dates_and_id_text
                  (B := Lab.backend) Lab.str_other
                  [("_id", SObjectId (B := Lab.backend) 0%nat);
                   ("titulo", SValue (VStr "Lisboa"));
                   ("created_at", SDatetime (B := Lab.backend) 0)] Hnd)).
Defined.

Lemma create_investor_stores_complete_investors_witness :
  let json := VDict [("nome", VStr "Ana"); ("corretora", VStr "XP");
                     ("valor", VInt 1000); ("perfil", VStr "moderado")] in
  exists body db',
    create_investor (B := Lab.backend) (St := Lab.store) json 0 []
    = Ret ((body, 201), db') /\
    length db' = 1%nat /\
    dict_get "name" body = Some (SValue (VStr "Ana")).
Proof.
  cbv zeta.
  eexists. eexists. split; [reflexivity|].
  destruct (create_investor_stores_complete_investors
              (B := Lab.backend) (St := Lab.store)
              (VDict [("nome", VStr "Ana"); ("corretora", VStr "XP");
                      ("valor", VInt 1000); ("perfil", VStr "moderado")])
              0 [] _ _ _ eq_refl)
    as [(H & _)|(_ & d & f & _ & _ & _ & _ & _ & _ & Hdb & Hbody)].
  - discriminate H.
  - split; reflexivity.
Defined.

Lemma create_investor_on_non_object_body_witness :
  create_investor (B := Lab.backend) (St := Lab.store) (VList [VInt 1]) 0 []
  = Raise AttributeError /\
  create_investor (B := Lab.backend) (St := Lab.store) (VDict []) 0 []
  = Ret ((error_body REQUIRED_FIELDS, 400), []).
Proof.
  split.
  - exact (proj2 (create_investor_on_non_object_body
                    (B := Lab.backend) (St := Lab.store) (VList [VInt 1]) 0 [])
                 eq_refl eq_refl).
  - exact (proj1 (create_investor_on_non_object_body
                    (B := Lab.backend) (St := Lab.store) (VDict []) 0 [])
                 eq_refl).
Defined.

End AppDocuments.

(** ** Expiry and the order of the library's checks *)

Lemma stale_decode_checks_in_order :
  decode_checks_in_order Stale.jose Lab.now (fun _ => True).
Proof.
  intros token key algorithms audience issuer h alg claims exp
         _ Hh Halg Hin Hc He Hlt.
  cbn in Hh, Hc |- *. unfold Stale.decode. rewrite Hh, Halg.
  assert (Ha : existsb (String.eqb alg) algorithms = true)
    by (apply existsb_exists; exists alg; split;
        [exact Hin|apply String.eqb_refl]).
  rewrite Ha. cbn [negb]. split.
  - intros ->. reflexivity.
  - intros -> [Hiat Hnbf]. cbn [negb]. rewrite Hc.
    assert (Hv : Stale.validate_exp_aud_iss claims audience issuer
                 = ExpiredSignatureError).
    { unfold Stale.validate_exp_aud_iss. rewrite He.
      apply Z.ltb_lt in Hlt. rewrite Hlt. reflexivity. }
    destruct Hiat as [->|[z ->]];
      (destruct Hnbf as [->|[n [-> Hn]]];
       [exact Hv|apply Z.ltb_ge in Hn; rewrite Hn; exact Hv]).
Qed.

(** C2 as stated fails, in more than one way: an expired token is rejected
    for its key when no key of the set has its [kid], and, with a library
    that checks in the order of [jose.jwt], as invalid when its signature
    does not validate, when its [nbf] has not come or when it names
    another algorithm than RS256. *)
Lemma expired_token_not_reported_expired :
  (exp_in_past Lab.jose Lab.now "stray" /\
   fst (Lab.guard None (Some "Bearer stray") Lab.warm)
   = Raise (HTTPException 401 "Unable to find appropriate key")) /\
  (exp_in_past Stale.jose Lab.now "stale-forged" /\
   fst (Stale.guard (Some "Bearer stale-forged") Lab.warm)
   = Raise (HTTPException 401 "Invalid token: Signature verification failed.")) /\
  (exp_in_past Stale.jose Lab.now "stale-early" /\
   fst (Stale.guard (Some "Bearer stale-early") Lab.warm)
   = Raise (HTTPException 401 "Invalid token: The token is not yet valid (nbf)")) /\
  (exp_in_past Stale.jose Lab.now "stale-hmac" /\
   fst (Stale.guard (Some "Bearer stale-hmac") Lab.warm)
   = Raise (HTTPException 401
              "Invalid token: The specified alg value is not allowed")).
Proof.
  split; [|split; [|split]]; (split; [|reflexivity]).
  - exists (Lab.claims 1600000000 []), 1600000000. repeat split.
  - exists (Lab.claims 1600000000 []), 1600000000. repeat split.
  - exists (Lab.claims 1600000000 [("nbf", VInt 1900000000)]), 1600000000.
    repeat split.
  - exists (Lab.claims 1600000000 []), 1600000000. repeat split.
Qed.

Lemma expired_token_reported_after_signature_witness :
  decode_checks_in_order Stale.jose Lab.now (fun _ => True) /\
  exp_in_past Stale.jose Lab.now "stale" /\
  Stale.guard (Some "Bearer stale") Lab.warm
  = (Raise (HTTPException 401 "token expired"), Lab.warm) /\
  Stale.guard (Some "Bearer stale-forged") Lab.warm
  = (Raise (HTTPException 401 "Invalid token: Signature verification failed."),
     Lab.warm).
Proof.
  split; [exact stale_decode_checks_in_order|split].
  - exists (Lab.claims 1600000000 []), 1600000000. repeat split.
  - split.
    + refine (proj1 (expired_token_reported_after_signature
                       (C := Lab.config) (J := Stale.jose) None Lab.handler
                       Lab.now (fun _ => True)
                       (Some "Bearer stale") "stale" Lab.warm Lab.jwks Lab.warm
                       (Lab.header "RS256" "k1") (VList [Lab.key1]) [Lab.key1]
                       (rsa_fields [("kty", VStr "RSA"); ("kid", VStr "k1");
                                    ("use", VStr "sig"); ("n", VStr "sXch");
                                    ("e", VStr "AQAB"); ("alg", VStr "RS256")])
                       (Lab.claims 1600000000 []) 1600000000
                       stale_decode_checks_in_order
                       eq_refl eq_refl eq_refl eq_refl eq_refl eq_refl eq_refl
                       _ I eq_refl eq_refl eq_refl eq_refl)
                    eq_refl
                    (conj (or_introl eq_refl) (or_introl eq_refl))).
      discriminate.
    + refine (proj1 (proj2 (expired_token_reported_after_signature
                       (C := Lab.config) (J := Stale.jose) None Lab.handler
                       Lab.now (fun _ => True)
                       (Some "Bearer stale-forged") "stale-forged"
                       Lab.warm Lab.jwks Lab.warm
                       (Lab.header "RS256" "k1") (VList [Lab.key1]) [Lab.key1]
                       (rsa_fields [("kty", VStr "RSA"); ("kid", VStr "k1");
                                    ("use", VStr "sig"); ("n", VStr "sXch");
                                    ("e", VStr "AQAB"); ("alg", VStr "RS256")])
                       (Lab.claims 1600000000 []) 1600000000
                       stale_decode_checks_in_order
                       eq_refl eq_refl eq_refl eq_refl eq_refl eq_refl eq_refl
                       _ I eq_refl eq_refl eq_refl eq_refl))
                    eq_refl).
      discriminate.
Defined.

(** ** Failures that are not aborts *)

(** C8. A failure of a guard must be answered 500 only when the key store
    is unavailable.  The exceptions the guards let through are answered
    500 as well, by the handler registered for 500, with the error value
    "internal_server_error" and a description that stands for no failure
    of the taxonomy: the header made of one character 160 ends in
    [IndexError] although the key set is in the cache (the specification
    answers it 401), and under the admin guard the payload with
    [roles: [1]] ends in [AttributeError] (the specification answers it
    403). *)
Theorem unhandled_failure_answered_500 :
  let blank := Some (String (ascii_of_nat 160) "") in
  let answer :=
    (VDict [("error", VStr "internal_server_error");
            ("message", VStr INTERNAL_SERVER_ERROR_DESCRIPTION)], 500) in
  get_jwks (C := Lab.config) Lab.warm = (Ret Lab.jwks, Lab.warm) /\
  Lab.guard None blank Lab.warm = (Raise IndexError, Lab.warm) /\
  errorhandler IndexError = Some answer /\
  failure_of INTERNAL_SERVER_ERROR_DESCRIPTION = None /\
  fst (Lab.admin_guard (Some "Bearer odd") Lab.warm) = Raise AttributeError /\
  errorhandler AttributeError = Some answer.
Proof. repeat split. Qed.
